(** * The shopping cart of the pharmacy storefront (src/context/CartContext.tsx)

    A shallow embedding of the cart store: the reducer, the provider's
    effects (hydration from localStorage, cross-tab synchronisation) and the
    public helpers, together with the parts of the JavaScript platform they
    call (Number arithmetic, Math.max, Math.trunc, ToBoolean, ToNumber,
    strict equality, object spread and JSON.parse).

    Conventions of the embedding.
    - A JavaScript Number is NaN, +Infinity, -Infinity or a rational. The
      arithmetic operations and the numeric literals round to binary64
      (to the nearest value, ties to the even significand, overflow to an
      infinity); comparison, Math.max and Math.trunc are exact on binary64
      values. The two zeros are not told apart.
    - A JavaScript String is its sequence of UTF-16 code units.
    - A plain object is a finite map from property names to values.
    - A completion is either a normal result or a thrown exception.
    - What the signatures of the public helpers say of their arguments is
      taken as given (an id is a String, a quantity or a delta a Number, an
      item a cart line); what is read from storage is any JSON value. *)

From Stdlib Require Import QArith ZArith List String Ascii.
From stdpp Require Import gmap strings list fin_maps.

Set Warnings "-register-all".

(** ** JavaScript numbers *)

Module Number.

Inductive t :=
| NaN
| PInf
| NInf
| Fin (q : Q).

Definition of_Z (z : Z) : t := Fin (inject_Z z).

Definition one : t := of_Z 1.
Definition zero : t := of_Z 0.

Definition isNaN (a : t) : bool :=
  match a with NaN => true | _ => false end.

Definition isFinite (a : t) : bool :=
  match a with Fin _ => true | _ => false end.

(** [- a] *)
Definition opp (a : t) : t :=
  match a with
  | NaN => NaN
  | PInf => NInf
  | NInf => PInf
  | Fin x => Fin (Qred (- x))
  end.

(** *** Rounding to binary64 *)

(** 2^k for a k that is not negative, and 1 otherwise. *)
Definition pow2 (k : Z) : Z := (2 ^ Z.max 0 k)%Z.

(** The integer e with 2^e <= n/d < 2^(e+1). *)
Definition floor_log2 (n d : positive) : Z :=
  let e := (Z.log2 (Zpos n) - Z.log2 (Zpos d))%Z in
  if (Zpos d * pow2 e <=? Zpos n * pow2 (- e))%Z then e else (e - 1)%Z.

(** The integer nearest to N/D, and the even one of the two nearest when
    N/D lies halfway between them. *)
Definition nearest_even (N D : Z) : Z :=
  let c := (N / D)%Z in
  match (2 * (N mod D) ?= D)%Z with
  | Lt => c
  | Gt => (c + 1)%Z
  | Eq => if Z.even c then c else (c + 1)%Z
  end.

(** The Number for the positive rational n/d. A finite Number other than 0
    is m × 2^k with |m| < 2^53 and -1074 <= k <= 971; n/d is rounded to
    the nearest multiple m × 2^k of the power of two that leaves m 53 bits
    (fewer at the bottom of the range), ties going to the even m, and a
    result of 2^1024 or more is +Infinity. *)
Definition round_positive (n d : positive) : t :=
  let k := Z.max (-1074) (floor_log2 n d - 52) in
  let m := nearest_even (Zpos n * pow2 (- k)) (Zpos d * pow2 k) in
  let v := Qred ((m * pow2 k) # Z.to_pos (pow2 (- k))) in
  if Qle_bool (inject_Z (2 ^ 1024)) v then PInf else Fin v.

(** The Number for a rational: what an arithmetic operation returns for
    its exact result, and what a numeric literal denotes. *)
Definition round (q : Q) : t :=
  match Qred q with
  | Z0 # _ => Fin 0
  | Zpos n # d => round_positive n d
  | Zneg n # d => opp (round_positive n d)
  end.

(** [a + b] on two Numbers. *)
Definition add (a b : t) : t :=
  match a, b with
  | NaN, _ | _, NaN => NaN
  | PInf, NInf | NInf, PInf => NaN
  | PInf, _ | _, PInf => PInf
  | NInf, _ | _, NInf => NInf
  | Fin x, Fin y => round (x + y)
  end.

(** [a - b] on two Numbers. *)
Definition sub (a b : t) : t :=
  match a, b with
  | NaN, _ | _, NaN => NaN
  | PInf, PInf | NInf, NInf => NaN
  | PInf, _ | _, NInf => PInf
  | NInf, _ | _, PInf => NInf
  | Fin x, Fin y => round (x - y)
  end.

Definition scale_inf (positive_inf : bool) (x : Q) : t :=
  match (Qnum x ?= 0)%Z with
  | Eq => NaN
  | Gt => if positive_inf then PInf else NInf
  | Lt => if positive_inf then NInf else PInf
  end.

(** [a * b] on two Numbers. *)
Definition mul (a b : t) : t :=
  match a, b with
  | NaN, _ | _, NaN => NaN
  | Fin x, Fin y => round (x * y)
  | Fin x, PInf | PInf, Fin x => scale_inf true x
  | Fin x, NInf | NInf, Fin x => scale_inf false x
  | PInf, PInf | NInf, NInf => PInf
  | PInf, NInf | NInf, PInf => NInf
  end.

(** [a < b]: false as soon as one side is NaN. *)
Definition ltb (a b : t) : bool :=
  match a, b with
  | NaN, _ | _, NaN => false
  | _, NInf => false
  | NInf, _ => true
  | PInf, _ => false
  | _, PInf => true
  | Fin x, Fin y => negb (Qle_bool y x)
  end.

(** [a === b] on two Numbers: NaN differs from everything, itself included. *)
Definition eqb (a b : t) : bool :=
  match a, b with
  | PInf, PInf | NInf, NInf => true
  | Fin x, Fin y => Qeq_bool x y
  | _, _ => false
  end.

(** [Math.max(a, b)]: NaN as soon as one argument is NaN. *)
Definition Math_max (a b : t) : t :=
  match a, b with
  | NaN, _ | _, NaN => NaN
  | _, _ => if ltb a b then b else a
  end.

(** [Math.trunc(a)]: the integral part, rounding towards zero. *)
Definition Math_trunc (a : t) : t :=
  match a with
  | Fin x => of_Z (Z.quot (Qnum x) (Zpos (Qden x)))
  | _ => a
  end.

(** ToBoolean on a Number: 0 and NaN are falsy. *)
Definition truthy (a : t) : bool :=
  match a with
  | NaN => false
  | Fin x => negb (Qeq_bool x 0)
  | _ => true
  end.

End Number.

Abbreviation number := Number.t.

(** ** Strings and values *)

(** A String is the list of its UTF-16 code units. *)
Abbreviation jstring := (list N).

(** The String a literal of ASCII characters denotes. *)
Definition js (s : string) : jstring :=
  map N_of_ascii (list_ascii_of_string s).

(** The character of a code unit of the first 256. *)
Definition as_ascii (c : N) : option ascii :=
  if (c <? 256)%N then Some (ascii_of_N c) else None.

(** Values: the primitives, arrays and plain objects. These are the values
    JSON text denotes, plus [undefined] and NaN, which JSON cannot write. *)
Inductive value :=
| VUndef
| VNull
| VBool (b : bool)
| VNum (n : number)
| VStr (s : jstring)
| VArr (elems : list value)
| VObj (fields : gmap jstring value).

Abbreviation obj := (gmap jstring value).

(** Completions: a normal result or a thrown exception. *)
Inductive exception :=
| TypeError
| SyntaxError
| DOMException.

Inductive completion (A : Type) :=
| Normal (a : A)
| Throw (e : exception).

Arguments Normal {A} a.
Arguments Throw {A} e.

#[global] Instance completion_ret : MRet completion := @Normal.

#[global] Instance completion_bind : MBind completion :=
  fun A B (k : A -> completion B) (c : completion A) =>
    match c with
    | Normal a => k a
    | Throw e => Throw e
    end.

(** [try { body } catch (err) { handler }] *)
Definition try_catch {A} (body : completion A) (handler : exception -> completion A)
  : completion A :=
  match body with
  | Normal a => Normal a
  | Throw e => handler e
  end.

(** [Array.prototype.map] with a callback that may throw. *)
Fixpoint map_completion {A B} (f : A -> completion B) (l : list A)
  : completion (list B) :=
  match l with
  | [] => Normal []
  | a :: r => b ← f a; bs ← map_completion f r; Normal (b :: bs)
  end.

(** [Array.prototype.reduce] with a callback that may throw. *)
Fixpoint reduce_completion {A B} (f : B -> A -> completion B) (l : list A) (init : B)
  : completion B :=
  match l with
  | [] => Normal init
  | a :: r => b ← f init a; reduce_completion f r b
  end.

(** ** Numeric literals *)

Definition digit_value (c : N) : option N :=
  if ((48 <=? c) && (c <=? 57))%N then Some (c - 48)%N else None.

Definition hex_digit_value (c : N) : option N :=
  if ((48 <=? c) && (c <=? 57))%N then Some (c - 48)%N
  else if ((97 <=? c) && (c <=? 102))%N then Some (c - 87)%N
  else if ((65 <=? c) && (c <=? 70))%N then Some (c - 55)%N
  else None.

Definition is_digit (c : N) : bool :=
  match digit_value c with Some _ => true | None => false end.

(** The longest prefix of decimal digits, and what follows it. *)
Fixpoint take_digits (s : jstring) : jstring * jstring :=
  match s with
  | c :: r =>
      if is_digit c
      then let (ds, rest) := take_digits r in (c :: ds, rest)
      else ([], s)
  | [] => ([], [])
  end.

(** The value of a sequence of digits in a radix; [None] when a character
    is not a digit of the radix. *)
Definition digits_value (radix : N) (ds : jstring) : option N :=
  fold_left
    (fun acc c =>
       match acc, hex_digit_value c with
       | Some a, Some d => if (d <? radix)%N then Some (a * radix + d)%N else None
       | _, _ => None
       end)
    ds (Some 0%N).

Definition pow10 (e : Z) : Q :=
  if (0 <=? e)%Z then inject_Z (10 ^ e) else 1 # Z.to_pos (10 ^ (- e)).

(** A decimal literal cut into its parts: integer digits, the digits after
    a decimal point when there is one, and the exponent when there is one. *)
Record decimal := {
  int_part : jstring;
  frac_part : option jstring;
  exp_part : option Z
}.

(** The exponent part [e], [e+] or [e-] and digits up to the end of the
    literal; [Some None] when nothing is left to read. *)
Definition read_exponent (s : jstring) : option (option Z) :=
  match s with
  | [] => Some None
  | c :: r =>
      if ((c =? 101) || (c =? 69))%N then
        let '(negative, r') :=
          match r with
          | 45%N :: r' => (true, r')
          | 43%N :: r' => (false, r')
          | _ => (false, r)
          end in
        match take_digits r' with
        | (d :: ds, []) =>
            match digits_value 10 (d :: ds) with
            | Some v => Some (Some (if negative then - Z.of_N v else Z.of_N v)%Z)
            | None => None
            end
        | _ => None
        end
      else None
  end.

Definition read_decimal (s : jstring) : option decimal :=
  let '(ip, r1) := take_digits s in
  let '(fp, r2) :=
    match r1 with
    | 46%N :: r => let (f, r') := take_digits r in (Some f, r')
    | _ => (None, r1)
    end in
  match read_exponent r2 with
  | Some e => Some {| int_part := ip; frac_part := fp; exp_part := e |}
  | None => None
  end.

(** The rational a decimal literal writes. The Number the literal denotes
    is that rational rounded. *)
Definition decimal_value (d : decimal) : Q :=
  let f := default [] (frac_part d) in
  let m := Z.of_N (default 0%N (digits_value 10 (int_part d ++ f))) in
  let e := (default 0 (exp_part d) - Z.of_nat (length f))%Z in
  Qred (inject_Z m * pow10 e).

(** ** JSON.parse *)

(** A JSON number: an optional minus sign, an integer part without a
    superfluous leading zero, an optional fraction of at least one digit,
    an optional exponent. *)
Definition json_number (w : jstring) : option number :=
  let '(negative, body) :=
    match w with
    | 45%N :: r => (true, r)
    | _ => (false, w)
    end in
  match read_decimal body with
  | Some d =>
      let int_ok :=
        match int_part d with
        | [] => false
        | [48%N] => true
        | c :: _ => negb (c =? 48)%N
        end in
      let frac_ok :=
        match frac_part d with
        | Some [] => false
        | _ => true
        end in
      if int_ok && frac_ok
      then Some (if negative
                 then Number.opp (Number.round (decimal_value d))
                 else Number.round (decimal_value d))
      else None
  | None => None
  end.

Inductive token :=
| TLBrace
| TRBrace
| TLBracket
| TRBracket
| TComma
| TColon
| TLit (v : value).

(** The lexer reads the text one code unit at a time. Between tokens it is
    [InGap]; a number or one of the words true, false and null is
    collected [InWord] up to the first character that cannot continue it;
    a string is collected [InString], with [InEscape] after a backslash and
    [InUnicode] while the four hexadecimal digits of a \u escape are read.
    Collected characters are kept last first. *)
Inductive lexer_state :=
| InGap
| InWord (rev_chars : jstring)
| InString (rev_chars : jstring)
| InEscape (rev_chars : jstring)
| InUnicode (rev_chars : jstring) (rev_hex : jstring).

Definition is_json_whitespace (c : N) : bool :=
  ((c =? 32) || (c =? 9) || (c =? 10) || (c =? 13))%N.

Definition is_letter (c : N) : bool :=
  (((97 <=? c) && (c <=? 122)) || ((65 <=? c) && (c <=? 90)))%N.

(** Characters of numbers and of the three words. *)
Definition is_word_char (c : N) : bool :=
  (is_digit c || is_letter c || (c =? 43) || (c =? 45) || (c =? 46))%N.

Definition punctuation (c : N) : option token :=
  match as_ascii c with
  | Some "{"%char => Some TLBrace
  | Some "}"%char => Some TRBrace
  | Some "["%char => Some TLBracket
  | Some "]"%char => Some TRBracket
  | Some ","%char => Some TComma
  | Some ":"%char => Some TColon
  | _ => None
  end.

Definition word_token (rev_chars : jstring) : option token :=
  let w := rev rev_chars in
  if bool_decide (w = js "true") then Some (TLit (VBool true))
  else if bool_decide (w = js "false") then Some (TLit (VBool false))
  else if bool_decide (w = js "null") then Some (TLit VNull)
  else n ← json_number w; Some (TLit (VNum n)).

(** The character after a backslash: the quote (34), the backslash (92) and
    the slash (47) stand for themselves, b f n r t for control characters,
    and u (117) opens a four-digit escape. *)
Definition escaped (c : N) : option N :=
  match c with
  | 34%N | 92%N | 47%N => Some c
  | 98%N => Some 8%N
  | 102%N => Some 12%N
  | 110%N => Some 10%N
  | 114%N => Some 13%N
  | 116%N => Some 9%N
  | _ => None
  end.

Definition lex_gap (c : N) (out : list token) : option (lexer_state * list token) :=
  if is_json_whitespace c then Some (InGap, out)
  else match punctuation c with
       | Some t => Some (InGap, t :: out)
       | None =>
           if (c =? 34)%N then Some (InString [], out)
           else if is_word_char c then Some (InWord [c], out)
           else None
       end.

Definition lex_step (st : lexer_state) (c : N) (out : list token)
  : option (lexer_state * list token) :=
  match st with
  | InGap => lex_gap c out
  | InWord w =>
      if is_word_char c then Some (InWord (c :: w), out)
      else t ← word_token w; lex_gap c (t :: out)
  | InString s =>
      if (c =? 34)%N then Some (InGap, TLit (VStr (rev s)) :: out)
      else if (c =? 92)%N then Some (InEscape s, out)
      else if (c <? 32)%N then None
      else Some (InString (c :: s), out)
  | InEscape s =>
      if (c =? 117)%N then Some (InUnicode s [], out)
      else e ← escaped c; Some (InString (e :: s), out)
  | InUnicode s h =>
      match hex_digit_value c, h with
      | Some _, [_; _; _] =>
          u ← digits_value 16 (rev (c :: h)); Some (InString (u :: s), out)
      | Some _, _ => Some (InUnicode s (c :: h), out)
      | None, _ => None
      end
  end.

Fixpoint lex (st : lexer_state) (out : list token) (text : jstring)
  : option (list token) :=
  match text with
  | c :: r =>
      match lex_step st c out with
      | Some (st', out') => lex st' out' r
      | None => None
      end
  | [] =>
      match st with
      | InGap => Some (rev out)
      | InWord w => t ← word_token w; Some (rev (t :: out))
      | _ => None
      end
  end.

(** The parser reads the tokens one at a time and keeps the arrays and
    objects that are still open on a stack. *)
Inductive frame :=
| InArray (rev_elems : list value)
| InObject (fields : obj) (key : jstring).

Inductive parser_state :=
| ExpectValue (stack : list frame)
| ExpectFirstElement (stack : list frame)
| ExpectCommaOrRBracket (rev_elems : list value) (stack : list frame)
| ExpectFirstKey (stack : list frame)
| ExpectKey (fields : obj) (stack : list frame)
| ExpectColon (fields : obj) (key : jstring) (stack : list frame)
| ExpectCommaOrRBrace (fields : obj) (stack : list frame)
| Finished (v : value).

(** A value is complete: it is the result, the next element of the
    innermost open array, or the value of the pending key of the innermost
    open object (a repeated key keeps the last value). *)
Definition completed (v : value) (stack : list frame) : parser_state :=
  match stack with
  | [] => Finished v
  | InArray r :: k => ExpectCommaOrRBracket (v :: r) k
  | InObject m key :: k => ExpectCommaOrRBrace (<[key := v]> m) k
  end.

Definition start_value (t : token) (stack : list frame) : option parser_state :=
  match t with
  | TLit v => Some (completed v stack)
  | TLBracket => Some (ExpectFirstElement stack)
  | TLBrace => Some (ExpectFirstKey stack)
  | _ => None
  end.

Definition parse_step (st : parser_state) (t : token) : option parser_state :=
  match st with
  | ExpectValue k => start_value t k
  | ExpectFirstElement k =>
      match t with
      | TRBracket => Some (completed (VArr []) k)
      | _ => start_value t (InArray [] :: k)
      end
  | ExpectCommaOrRBracket r k =>
      match t with
      | TComma => Some (ExpectValue (InArray r :: k))
      | TRBracket => Some (completed (VArr (rev r)) k)
      | _ => None
      end
  | ExpectFirstKey k =>
      match t with
      | TRBrace => Some (completed (VObj ∅) k)
      | TLit (VStr key) => Some (ExpectColon ∅ key k)
      | _ => None
      end
  | ExpectKey m k =>
      match t with
      | TLit (VStr key) => Some (ExpectColon m key k)
      | _ => None
      end
  | ExpectColon m key k =>
      match t with
      | TColon => Some (ExpectValue (InObject m key :: k))
      | _ => None
      end
  | ExpectCommaOrRBrace m k =>
      match t with
      | TComma => Some (ExpectKey m k)
      | TRBrace => Some (completed (VObj m) k)
      | _ => None
      end
  | Finished _ => None
  end.

Fixpoint parse (st : parser_state) (ts : list token) : option value :=
  match ts with
  | t :: r =>
      match parse_step st t with
      | Some st' => parse st' r
      | None => None
      end
  | [] =>
      match st with
      | Finished v => Some v
      | _ => None
      end
  end.

(** [JSON.parse(text)]: the value the text denotes, or a SyntaxError. *)
Definition JSON_parse (text : jstring) : completion value :=
  match lex InGap [] text ≫= parse (ExpectValue []) with
  | Some v => Normal v
  | None => Throw SyntaxError
  end.

(** JSON texts are written below with an apostrophe where the text has a
    quotation mark (code unit 34). *)
Definition json_text (s : string) : jstring :=
  map (fun c => if (c =? 39)%N then 34%N else c) (js s).

(** ** Conversions and operators *)

Definition is_StrWhiteSpaceChar (c : N) : bool :=
  bool_decide (c ∈ [9; 10; 11; 12; 13; 32; 160; 5760; 8232; 8233; 8239; 8287;
                    12288; 65279]%N)
  || ((8192 <=? c) && (c <=? 8202))%N.

Fixpoint trim_start (s : jstring) : jstring :=
  match s with
  | c :: r => if is_StrWhiteSpaceChar c then trim_start r else s
  | [] => []
  end.

Definition trim (s : jstring) : jstring :=
  rev (trim_start (rev (trim_start s))).

(** An unsigned decimal literal of a numeric string: Infinity, or digits
    with an optional point and an optional exponent, where digits may be
    missing before the point or after it, not on both sides. *)
Definition unsigned_decimal (s : jstring) : number :=
  if bool_decide (s = js "Infinity") then Number.PInf
  else match read_decimal s with
       | Some d =>
           match int_part d, frac_part d with
           | _ :: _, _ | [], Some (_ :: _) => Number.round (decimal_value d)
           | _, _ => Number.NaN
           end
       | None => Number.NaN
       end.

Definition radix_literal (radix : N) (ds : jstring) : number :=
  match ds, digits_value radix ds with
  | _ :: _, Some v => Number.round (inject_Z (Z.of_N v))
  | _, _ => Number.NaN
  end.

(** StringToNumber: white space around the literal is dropped, the empty
    string is 0, a literal is a signed decimal or an unsigned binary, octal
    or hexadecimal integer, and anything else is NaN. *)
Definition StringToNumber (s : jstring) : number :=
  match trim s with
  | [] => Number.zero
  | 48%N :: 120%N :: ds | 48%N :: 88%N :: ds => radix_literal 16 ds
  | 48%N :: 111%N :: ds | 48%N :: 79%N :: ds => radix_literal 8 ds
  | 48%N :: 98%N :: ds | 48%N :: 66%N :: ds => radix_literal 2 ds
  | 43%N :: r => unsigned_decimal r
  | 45%N :: r => Number.opp (unsigned_decimal r)
  | r => unsigned_decimal r
  end.

(** Converting an object to a primitive ends in a TypeError exactly when
    the object has an own property [toString]: a value read from JSON text
    is not callable, and it hides Object.prototype.toString. An array is
    converted by joining the strings of its elements (null and undefined
    give the empty string), which fails when converting an element does. *)
Fixpoint ToPrimitive_throws (v : value) : bool :=
  match v with
  | VObj m => bool_decide (is_Some (m !! js "toString"))
  | VArr l => existsb ToPrimitive_throws l
  | _ => false
  end.

(** The Number of the text an array's only element is written as when the
    array is converted to a string: nothing for undefined and null, the
    words true and false for booleans, [object Object] for an object. *)
Fixpoint numeric_value_of_element (v : value) : number :=
  match v with
  | VUndef | VNull => Number.zero
  | VBool _ => Number.NaN
  | VNum n => n
  | VStr s => StringToNumber s
  | VArr [] => Number.zero
  | VArr [x] => numeric_value_of_element x
  | VArr _ => Number.NaN
  | VObj _ => Number.NaN
  end.

(** The Number a value converts to when the conversion completes. An array
    converts through its string (elements joined by commas), a plain object
    through [object Object]. *)
Definition numeric_value (v : value) : number :=
  match v with
  | VUndef => Number.NaN
  | VNull => Number.zero
  | VBool b => if b then Number.one else Number.zero
  | VNum n => n
  | VStr s => StringToNumber s
  | VArr [] => Number.zero
  | VArr [x] => numeric_value_of_element x
  | VArr _ => Number.NaN
  | VObj _ => Number.NaN
  end.

(** ToNumber. *)
Definition ToNumber (v : value) : completion number :=
  if ToPrimitive_throws v then Throw TypeError else Normal (numeric_value v).

(** ToBoolean. *)
Definition ToBoolean (v : value) : bool :=
  match v with
  | VUndef | VNull => false
  | VBool b => b
  | VNum n => Number.truthy n
  | VStr s => negb (bool_decide (s = []))
  | VArr _ | VObj _ => true
  end.

(** [a || b] *)
Definition or_else (a b : value) : value :=
  if ToBoolean a then a else b.

(** [a === b]. Primitives are compared by value. An array or an object is
    equal only to itself; references are not represented, and the answer
    given for them is the one for two values that were built separately. *)
Definition strict_equals (a b : value) : bool :=
  match a, b with
  | VUndef, VUndef | VNull, VNull => true
  | VBool x, VBool y => bool_decide (x = y)
  | VNum x, VNum y => Number.eqb x y
  | VStr x, VStr y => bool_decide (x = y)
  | _, _ => false
  end.

(** [Array.isArray(v)] *)
Definition isArray (v : value) : bool :=
  match v with VArr _ => true | _ => false end.

Fixpoint uint_codes (u : Decimal.uint) : jstring :=
  match u with
  | Decimal.Nil => []
  | Decimal.D0 r => 48%N :: uint_codes r
  | Decimal.D1 r => 49%N :: uint_codes r
  | Decimal.D2 r => 50%N :: uint_codes r
  | Decimal.D3 r => 51%N :: uint_codes r
  | Decimal.D4 r => 52%N :: uint_codes r
  | Decimal.D5 r => 53%N :: uint_codes r
  | Decimal.D6 r => 54%N :: uint_codes r
  | Decimal.D7 r => 55%N :: uint_codes r
  | Decimal.D8 r => 56%N :: uint_codes r
  | Decimal.D9 r => 57%N :: uint_codes r
  end.

(** The property name of an array index. *)
Definition index_key (i : nat) : jstring := uint_codes (Nat.to_uint i).

Definition indexed {A} (f : A -> value) (l : list A) : obj :=
  list_to_map (imap (fun i x => (index_key i, f x)) l).

(** The own enumerable properties of a value, which is what the spread
    [{...v}] copies: the fields of an object, the elements of an array and
    the characters of a string under their indices, and nothing for the
    other primitives. *)
Definition own_properties (v : value) : obj :=
  match v with
  | VObj m => m
  | VArr l => indexed id l
  | VStr s => indexed (fun c => VStr [c]) s
  | _ => ∅
  end.

(** [o.name] on an object: the field, or [undefined]. *)
Definition get (o : obj) (name : jstring) : value :=
  default VUndef (o !! name).


(** ** The cart store *)

Module CartContext.

(** A cart line. Every path that builds a line gives [quantity] a Number
    (a result of Math.max, or the sum of two Numbers), so the property is
    kept apart with that type; the other properties are kept as they came. *)
Record CartItem := {
  quantity : number;
  props : obj
}.

Record CartState := {
  items : list CartItem
}.

Inductive Action :=
| INIT (payload : list CartItem)
| ADD (payload : CartItem)
| REMOVE (id : jstring)
| CLEAR
| UPDATE_QTY (id : jstring) (quantity : number)
| INCREASE_QTY (id : jstring) (delta : option number)
| DECREASE_QTY (id : jstring) (delta : option number).

Definition STORAGE_KEY : jstring := js "cart_items_v1".

(** [i.id] and [i.price] *)
Definition id_of (i : CartItem) : value := get (props i) (js "id").
Definition price_of (i : CartItem) : value := get (props i) (js "price").

(** [{ ...i, quantity: q }] *)
Definition with_quantity (i : CartItem) (q : number) : CartItem :=
  {| quantity := q; props := props i |}.

(** [i.id === id] for the identifier an operation is given. *)
Definition has_id (id : jstring) (i : CartItem) : bool :=
  strict_equals (id_of i) (VStr id).

(** Reducer: pure state transitions *)
Definition reducer (state : CartState) (action : Action) : CartState :=
  match action with
  | INIT payload => {| items := payload |}
  | ADD item =>
      match List.find (fun i => strict_equals (id_of i) (id_of item)) (items state) with
      | Some existing =>
          {| items :=
               map (fun i =>
                      if strict_equals (id_of i) (id_of item)
                      then with_quantity i (Number.add (quantity i) (quantity item))
                      else i)
                   (items state) |}
      | None => {| items := items state ++ [item] |}
      end
  | REMOVE id =>
      {| items := List.filter (fun i => negb (has_id id i)) (items state) |}
  | CLEAR => {| items := [] |}
  | UPDATE_QTY id quantity =>
      if Number.ltb quantity Number.one then state
      else {| items :=
                map (fun i => if has_id id i then with_quantity i quantity else i)
                    (items state) |}
  | INCREASE_QTY id delta =>
      let delta := default Number.one delta in
      {| items :=
           map (fun i =>
                  if has_id id i
                  then with_quantity i
                         (Number.add (quantity i)
                            (Number.Math_max Number.one (Number.Math_trunc delta)))
                  else i)
               (items state) |}
  | DECREASE_QTY id delta =>
      let delta := default Number.one delta in
      {| items :=
           map (fun i =>
                  if has_id id i
                  then with_quantity i
                         (Number.Math_max Number.one
                            (Number.sub (quantity i)
                               (Number.Math_max Number.one (Number.Math_trunc delta))))
                  else i)
               (items state) |}
  end.

Definition initialState : CartState := {| items := [] |}.

(** [Math.max(1, Math.trunc(n || 1))] for a Number [n] *)
Definition safe_number (n : number) : number :=
  Number.Math_max Number.one
    (Number.Math_trunc (if Number.truthy n then n else Number.one)).

(** [Math.max(1, Math.trunc(q || 1))] for any value [q]: Math.trunc
    converts its argument with ToNumber. *)
Definition safe_quantity (q : value) : completion number :=
  n ← ToNumber (or_else q (VNum Number.one));
  Normal (Number.Math_max Number.one (Number.Math_trunc n)).

(** The [quantity] property of an element of a parsed array: the field of
    an object, and [undefined] for the other values (neither a primitive
    nor an array has a property of that name). *)
Definition stored_quantity (p : value) : value :=
  match p with
  | VObj m => get m (js "quantity")
  | _ => VUndef
  end.

(** [p.quantity]: reading a property of null or undefined is a TypeError. *)
Definition read_quantity (p : value) : completion value :=
  match p with
  | VUndef | VNull => Throw TypeError
  | _ => Normal (stored_quantity p)
  end.

(** [{ ...p, quantity: Math.max(1, Math.trunc(p.quantity || 1)) }] *)
Definition sanitize (p : value) : completion CartItem :=
  q ← read_quantity p;
  n ← safe_quantity q;
  Normal {| quantity := n; props := delete (js "quantity") (own_properties p) |}.

(** Initialize once from storage. [getItem] is what
    [localStorage.getItem(STORAGE_KEY)] does: it throws, or returns null
    ([None]) or the stored text. *)
Definition hydrate (isBrowser : bool) (getItem : completion (option jstring))
    (state : CartState) : completion CartState :=
  if negb isBrowser then Normal state
  else
    try_catch
      (raw ← getItem;
       match raw with
       | None | Some [] => Normal (reducer state (INIT []))
       | Some text =>
           parsed ← JSON_parse text;
           match parsed with
           | VArr elems =>
               safe ← map_completion sanitize elems;
               Normal (reducer state (INIT safe))
           | _ => Normal (reducer state (INIT []))
           end
       end)
      (fun err => Normal (reducer state (INIT []))).




(** Cross-tab sync. *)
Record StorageEvent := {
  key : option jstring;
  newValue : option jstring
}.

Definition onStorage (e : StorageEvent) (state : CartState) : completion CartState :=
  if negb (bool_decide (key e = Some STORAGE_KEY)) then Normal state
  else
    try_catch
      (newVal ← match newValue e with
                | None | Some [] => Normal (VArr [])
                | Some text => JSON_parse text
                end;
       match newVal with
       | VArr elems =>
           safe ← map_completion sanitize elems;
           Normal (reducer state (INIT safe))
       | _ => Normal state
       end)
      (fun err => Normal state).

(** Public API helpers *)

Definition addToCart (state : CartState) (item : CartItem) : CartState :=
  let safeItem := with_quantity item (safe_number (quantity item)) in
  reducer state (ADD safeItem).

Definition removeFromCart (state : CartState) (id : jstring) : CartState :=
  reducer state (REMOVE id).

Definition clearCart (state : CartState) : CartState :=
  reducer state CLEAR.

Definition updateQuantity (state : CartState) (id : jstring) (quantity : number)
  : CartState :=
  let q := Number.Math_max Number.one (Number.Math_trunc quantity) in
  reducer state (UPDATE_QTY id q).

Definition increaseQty (state : CartState) (id : jstring) (delta : option number)
  : CartState :=
  let delta := default Number.one delta in
  reducer state (INCREASE_QTY id (Some delta)).

Definition decreaseQty (state : CartState) (id : jstring) (delta : option number)
  : CartState :=
  let delta := default Number.one delta in
  reducer state (DECREASE_QTY id (Some delta)).

Definition getCartTotal (state : CartState) : completion number :=
  reduce_completion
    (fun sum it =>
       price ← ToNumber (price_of it);
       Normal (Number.add sum (Number.mul price (quantity it))))
    (items state) Number.zero.

Definition getTotalItems (state : CartState) : number :=
  fold_left (fun sum it => Number.add sum (quantity it)) (items state) Number.zero.

(** *** The public operations as data *)

Inductive operation :=
| Add (item : CartItem)
| Remove (id : jstring)
| Clear
| SetQuantity (id : jstring) (quantity : number)
| IncreaseQuantity (id : jstring) (delta : option number)
| DecreaseQuantity (id : jstring) (delta : option number)
| Hydrate (getItem : completion (option jstring))
| Sync (e : StorageEvent).

Definition perform (state : CartState) (op : operation) : completion CartState :=
  match op with
  | Add item => Normal (addToCart state item)
  | Remove id => Normal (removeFromCart state id)
  | Clear => Normal (clearCart state)
  | SetQuantity id q => Normal (updateQuantity state id q)
  | IncreaseQuantity id d => Normal (increaseQty state id d)
  | DecreaseQuantity id d => Normal (decreaseQty state id d)
  | Hydrate getItem => hydrate true getItem state
  | Sync e => onStorage e state
  end.

Fixpoint run (state : CartState) (ops : list operation) : completion CartState :=
  match ops with
  | [] => Normal state
  | op :: rest => state' ← perform state op; run state' rest
  end.

(** *** The data model's invariants *)

(** An integer greater than or equal to 1. *)
Definition positive_integer (q : number) : Prop :=
  exists n : Z, (1 <= n)%Z /\ q = Number.of_Z n.

Definition quantities_valid (state : CartState) : Prop :=
  Forall (fun i => positive_integer (quantity i)) (items state).

(** No two lines share an id. *)
Definition unique_ids (state : CartState) : Prop :=
  NoDup (map id_of (items state)).

(** The [id] an element of a stored array gives its line. *)
Definition element_id (p : value) : value :=
  get (own_properties p) (js "id").

(** The elements of the array a text denotes have pairwise distinct ids. *)
Definition distinct_ids (text : option jstring) : Prop :=
  forall t elems,
    text = Some t -> JSON_parse t = Normal (VArr elems) ->
    NoDup (map element_id elems).

(** What an operation is given is as its signature says, and what it reads
    from storage has no repeated id. *)
Definition admissible (op : operation) : Prop :=
  match op with
  | Add item => exists id, props item !! js "id" = Some (VStr id)
  | Hydrate getItem => forall text, getItem = Normal text -> distinct_ids text
  | Sync e => key e = Some STORAGE_KEY -> distinct_ids (newValue e)
  | _ => True
  end.



(** *** The specification's wording *)

(** The sum of a sequence of Numbers, added from left to right starting
    at 0. *)
Definition sum_of (l : list number) : number :=
  fold_left Number.add l Number.zero.

(** The sum of a sequence of integers. *)
Definition total_of (l : list Z) : Z := fold_right Z.add 0%Z l.

(** price × quantity of a line; the price of a line read from storage
    may be any value, and the product converts it with ToNumber. *)
Definition line_total (i : CartItem) : completion number :=
  price ← ToNumber (price_of i);
  Normal (Number.mul price (quantity i)).

(** A line whose price and quantity are the integers [fst pq] and
    [snd pq]. *)
Definition whole_line (i : CartItem) (pq : Z * Z) : Prop :=
  price_of i = VNum (Number.of_Z (fst pq)) /\ quantity i = Number.of_Z (snd pq).

(** "Quantity is sanitized to max(1, truncate(quantity)); malformed
    non-numeric quantity is treated as 1." *)
Definition sanitized (n : number) : number :=
  if Number.isNaN n then Number.one
  else Number.Math_max Number.one (Number.Math_trunc n).

(** The integer that max(1, truncate(quantity)) is for a finite quantity,
    and 1 for NaN and -Infinity. +Infinity is sanitized to itself and has
    no such integer; where the integer is used, +Infinity is excluded. *)
Definition sanitized_integer (n : number) : Z :=
  match n with
  | Number.Fin x => Z.max 1 (Z.quot (Qnum x) (Zpos (Qden x)))
  | _ => 1%Z
  end.

(** A quantity that the sanitization pass turns into an integer greater
    than or equal to 1: a Number other than +Infinity, a boolean, null, or
    no quantity at all. *)
Definition plain_quantity (q : value) : Prop :=
  match q with
  | VNum Number.PInf => False
  | VNum _ | VBool _ | VNull | VUndef => True
  | _ => False
  end.


(** The quantity the sanitization pass computes from a stored quantity
    whose conversion completes. *)
Definition clamped_quantity (q : value) : number :=
  Number.Math_max Number.one
    (Number.Math_trunc (numeric_value (or_else q (VNum Number.one)))).

(** The line the sanitization pass makes of an element it does not
    reject. *)
Definition sanitized_line (p : value) : CartItem :=
  {| quantity := clamped_quantity (stored_quantity p);
     props := delete (js "quantity") (own_properties p) |}.

Definition nullish (p : value) : bool :=
  match p with
  | VUndef | VNull => true
  | _ => false
  end.

(** The elements on which the sanitization pass throws: null (reading a
    property of it), and an element whose quantity cannot be converted to a
    Number. *)
Definition rejected (p : value) : bool :=
  nullish p || ToPrimitive_throws (stored_quantity p).

(** Durable-storage content from which hydration cannot take lines: the
    read fails, nothing is stored, the text is empty or is not JSON, the
    text denotes something other than an array, or it denotes an array
    with an element the sanitization pass rejects. *)
Definition unusable (getItem : completion (option jstring)) : Prop :=
  (exists e, getItem = Throw e)
  \/ getItem = Normal None
  \/ (exists text, getItem = Normal (Some text) /\
       ((exists e, JSON_parse text = Throw e)
        \/ (exists v, JSON_parse text = Normal v /\ isArray v = false)
        \/ (exists elems, JSON_parse text = Normal (VArr elems)
                          /\ existsb rejected elems = true))).

(** *** Sample data *)

(** A line with an id, a price and a quantity. *)
Definition line (id : string) (price qty : Z) : CartItem :=
  {| quantity := Number.of_Z qty;
     props := <[js "id" := VStr (js id)]> {[ js "price" := VNum (Number.of_Z price) ]} |}.

End CartContext.


(** ** Debounced persistence: the second effect of the provider *)

Module Persist.
Import CartContext.

(** What the effect touches: the ref that holds the handle of the pending
    timeout, the timeouts the effect has set and that have neither fired
    nor been cleared (each with the [state.items] its callback closes
    over), the handle the next [setTimeout] returns, and the text stored
    under the cart's key. A handle is a positive integer, so a ref that
    holds one is truthy. *)
Record Window := {
  saveTimerRef : option positive;
  timeouts : gmap positive (list CartItem);
  next_handle : positive;
  stored : option jstring
}.

Definition set_saveTimerRef (r : option positive) (w : Window) : Window :=
  {| saveTimerRef := r; timeouts := timeouts w;
     next_handle := next_handle w; stored := stored w |}.

(** [window.clearTimeout(h)] *)
Definition clearTimeout (h : positive) (w : Window) : Window :=
  {| saveTimerRef := saveTimerRef w; timeouts := delete h (timeouts w);
     next_handle := next_handle w; stored := stored w |}.

(** [window.setTimeout(callback, 300)], for the callback that writes
    [items]: the handle returned, and the window with the timeout set. *)
Definition setTimeout (items : list CartItem) (w : Window) : positive * Window :=
  (next_handle w,
   {| saveTimerRef := saveTimerRef w;
      timeouts := <[next_handle w := items]> (timeouts w);
      next_handle := Pos.succ (next_handle w); stored := stored w |}).

(** The body of the effect, run with the [state.items] of a render. *)
Definition persist_effect (isBrowser : bool) (items : list CartItem) (w : Window)
  : Window :=
  if negb isBrowser then w
  else
    let w1 :=
      match saveTimerRef w with
      | Some h => clearTimeout h w
      | None => w
      end in
    let '(h, w2) := setTimeout items w1 in
    set_saveTimerRef (Some h) w2.

(** The cleanup the effect returns; there is none when the effect returned
    early. *)
Definition persist_cleanup (isBrowser : bool) (w : Window) : Window :=
  if negb isBrowser then w
  else
    match saveTimerRef w with
    | Some h => set_saveTimerRef None (clearTimeout h w)
    | None => w
    end.

Section Stringify.

(** [JSON.stringify] on the lines of the cart. *)
Variable JSON_stringify : list CartItem -> jstring.

(** The timeout with handle [h] comes due. Nothing happens when it is no
    longer set. Otherwise its callback runs: [localStorage.setItem] stores
    the text, or throws ([setItem_throws]) and the exception is caught and
    logged; in both cases the ref is reset. *)
Definition timeout_fires (h : positive) (setItem_throws : bool) (w : Window) : Window :=
  match timeouts w !! h with
  | None => w
  | Some items =>
      {| saveTimerRef := None;
         timeouts := delete h (timeouts w);
         next_handle := next_handle w;
         stored := if setItem_throws then stored w
                   else Some (JSON_stringify items) |}
  end.

Inductive event :=
| Effect (items : list CartItem)
| Cleanup
| Timeout (h : positive) (setItem_throws : bool).

Definition step (isBrowser : bool) (w : Window) (e : event) : Window :=
  match e with
  | Effect items => persist_effect isBrowser items w
  | Cleanup => persist_cleanup isBrowser w
  | Timeout h throws => timeout_fires h throws w
  end.

Definition run_events (isBrowser : bool) (w : Window) (events : list event) : Window :=
  fold_left (step isBrowser) events w.

End Stringify.

(** The window when the provider mounts, with what the storage holds. *)
Definition mounted (text : option jstring) : Window :=
  {| saveTimerRef := None; timeouts := ∅; next_handle := 1%positive; stored := text |}.

(** The ref and the timeouts agree: no timeout is set and the ref is
    null, or one timeout is set and the ref holds its handle. *)
Definition consistent (w : Window) : Prop :=
  match saveTimerRef w with
  | None => timeouts w = ∅
  | Some h => exists items, timeouts w = {[ h := items ]}
  end.

(** The [state.items] of the last run of the effect. *)
Definition last_effect (events : list event) : option (list CartItem) :=
  fold_left (fun last e => match e with Effect items => Some items | _ => last end)
            events None.

(** What is pending is the write of the latest items: no timeout is set
    and the ref is null, or the ref holds the handle of the one timeout
    that is set, and that timeout writes the items [last]. *)
Definition pending_latest (last : option (list CartItem)) (w : Window) : Prop :=
  match saveTimerRef w with
  | None => timeouts w = ∅
  | Some h => exists items, last = Some items /\ timeouts w = {[ h := items ]}
  end.

(** The events of a sequence of renders with the given [state.items]: the
    effect runs after the first render, and after each later render with
    new items the cleanup of the previous run and then the effect. *)
Definition renders (first : list CartItem) (rest : list (list CartItem)) : list event :=
  Effect first :: flat_map (fun items => [Cleanup; Effect items]) rest.

End Persist.

(** ** The cart page (src/components/Cart.tsx) *)

Module CartPage.
Import CartContext.

(** [Number.parseInt(s, 10)]: leading white space is skipped, a sign is
    read, and the longest run of decimal digits that follows is the value,
    rounded to a Number; NaN when there is no digit. *)
Definition parseInt10 (s : jstring) : number :=
  let '(negative, body) :=
    match trim_start s with
    | 45%N :: r => (true, r)
    | 43%N :: r => (false, r)
    | r => (false, r)
    end in
  match fst (take_digits body) with
  | [] => Number.NaN
  | ds =>
      match digits_value 10 ds with
      | Some v =>
          Number.round (inject_Z (if negative then - Z.of_N v else Z.of_N v))
      | None => Number.NaN
      end
  end.

(** The input keeps the digits of what is typed:
    every character that is not one of 0 to 9 is dropped. *)
Definition typed (text : jstring) : jstring := List.filter is_digit text.

(** What [commit] of the quantity input does: it puts the text of the
    current quantity back in the input, or it calls [onChange]. *)
Inductive committed :=
| SetLocalToValue
| OnChange (n : number).

(** [commit(val)] with the text [local] in the input. *)
Definition commit (val : option jstring) (local : jstring) : committed :=
  let raw := default local val in
  let n := parseInt10 (match raw with [] => js "0" | _ => raw end) in
  if Number.isNaN n || Number.ltb n Number.one then SetLocalToValue
  else OnChange (Number.Math_max Number.one (Number.Math_trunc n)).

Definition handleAdjustQty (quantityControlsEnabled : bool) (state : CartState)
    (id : jstring) (qty : number) : CartState :=
  if negb quantityControlsEnabled then state
  else
    let safeQty := Number.Math_max Number.one (Number.Math_trunc qty) in
    updateQuantity state id safeQty.

(** The quantity input of the line [id] commits: its [onChange] is
    [(n) => handleAdjustQty(item.id, n)]. *)
Definition input_commits (quantityControlsEnabled : bool) (state : CartState)
    (id : jstring) (val : option jstring) (local : jstring) : CartState :=
  match commit val local with
  | SetLocalToValue => state
  | OnChange n => handleAdjustQty quantityControlsEnabled state id n
  end.

(** The minus button of a line:
    [handleAdjustQty(item.id, Math.max(1, item.quantity - 1))]. *)
Definition minus_clicked (quantityControlsEnabled : bool) (state : CartState)
    (id : jstring) (item : CartItem) : CartState :=
  handleAdjustQty quantityControlsEnabled state id
    (Number.Math_max Number.one (Number.sub (quantity item) Number.one)).

(** The plus button of a line: [handleAdjustQty(item.id, item.quantity + 1)]. *)
Definition plus_clicked (quantityControlsEnabled : bool) (state : CartState)
    (id : jstring) (item : CartItem) : CartState :=
  handleAdjustQty quantityControlsEnabled state id
    (Number.add (quantity item) Number.one).

End CartPage.

(** ** More about the store *)

Module CartContextMore.
Import CartContext.

(** No quantity is below 1: each is 1 or more, or is NaN. *)
Definition never_below_one (state : CartState) : Prop :=
  Forall (fun i => Number.ltb (quantity i) Number.one = false) (items state).

(** An integer that is at least 1, or +Infinity, which is what a sum of
    such integers overflows to. *)
Definition whole_or_infinite (q : number) : Prop :=
  q = Number.PInf \/ positive_integer q.

Definition quantities_whole (state : CartState) : Prop :=
  Forall (fun i => whole_or_infinite (quantity i)) (items state).


End CartContextMore.

(** * Tactics *)

(** Closes goals saying that a line keeps its properties when only its
    quantity is replaced under a condition. *)
Ltac same_props :=
  let i := fresh "i" in
  intros i; simpl;
  repeat match goal with |- context [if ?b then _ else _] => destruct b end;
  reflexivity.

(** * Facts about numbers *)

Module NumberFacts.
Import Number.

Lemma ltb_of_Z (a b : Z) : ltb (of_Z a) (of_Z b) = (a <? b)%Z.
Proof.
  unfold ltb, of_Z, Qle_bool, inject_Z. simpl.
  rewrite !Z.mul_1_r. rewrite Z.ltb_antisym. reflexivity.
Qed.

Lemma Math_max_of_Z (a b : Z) : Math_max (of_Z a) (of_Z b) = of_Z (Z.max a b).
Proof.
  unfold Math_max. change (Fin (inject_Z a)) with (of_Z a).
  change (Fin (inject_Z b)) with (of_Z b).
  rewrite ltb_of_Z. unfold of_Z at 1 2. cbv iota.
  destruct (Z.ltb_spec a b); f_equal; f_equal; lia.
Qed.

Lemma Math_trunc_of_Z (a : Z) : Math_trunc (of_Z a) = of_Z a.
Proof. unfold Math_trunc, of_Z. simpl. rewrite Z.quot_1_r. reflexivity. Qed.

(** Truncating a finite number and taking the larger of the result and 1
    gives an integer that is at least 1. *)
Lemma clamp_finite (x : Q) :
  Math_max one (Math_trunc (Fin x)) = of_Z (Z.max 1 (Z.quot (Qnum x) (Zpos (Qden x)))).
Proof. unfold one. simpl Math_trunc. apply Math_max_of_Z. Qed.

(** A number below 1 is clamped to 1. *)
Lemma clamp_below_one (q : t) :
  ltb q one = true -> Math_max one (Math_trunc q) = one.
Proof.
  destruct q as [| | |x]; simpl; try discriminate; try reflexivity.
  intros H. change (Math_max one (Math_trunc (Fin x)) = one).
  rewrite clamp_finite. unfold one. f_equal.
  apply negb_true_iff in H.
  assert (Hlt : (Qnum x < Zpos (Qden x))%Z).
  { destruct (Z.lt_ge_cases (Qnum x) (Zpos (Qden x))) as [|Hge]; [assumption|].
    exfalso. apply not_true_iff_false in H. apply H.
    apply Qle_bool_iff. unfold Qle. simpl. lia. }
  assert ((Qnum x ÷ Zpos (Qden x) <= 0)%Z); [|lia].
  destruct (Z.le_gt_cases 0 (Qnum x)).
  - rewrite Z.quot_small; lia.
  - apply Z.quot_le_upper_bound; lia.
Qed.

Lemma opp_of_Z (a : Z) : opp (of_Z a) = of_Z (- a).
Proof.
  unfold opp, of_Z. f_equal. rewrite <- (inject_Z_Qred (- a)).
  apply Qred_complete. rewrite inject_Z_opp. reflexivity.
Qed.

(** *** Rounding *)

Lemma pow2_nonneg (k : Z) : (0 <= k)%Z -> pow2 k = (2 ^ k)%Z.
Proof. intros H. unfold pow2. rewrite Z.max_r by exact H. reflexivity. Qed.

Lemma pow2_nonpos (k : Z) : (k <= 0)%Z -> pow2 k = 1%Z.
Proof. intros H. unfold pow2. rewrite Z.max_l by exact H. reflexivity. Qed.

Lemma pow2_positive (k : Z) : (0 < pow2 k)%Z.
Proof. unfold pow2. apply Z.pow_pos_nonneg; lia. Qed.

(** 2^j scaled down by 2^k, whatever the sign of k. *)
Lemma pow2_split (k j : Z) :
  (0 <= j)%Z -> (0 <= k + j)%Z ->
  (pow2 k * 2 ^ j = 2 ^ (k + j) * pow2 (- k))%Z.
Proof.
  intros Hj Hkj. destruct (Z.le_gt_cases 0 k) as [Hk|Hk].
  - rewrite (pow2_nonneg k Hk), (pow2_nonpos (- k)) by lia.
    rewrite Z.pow_add_r by lia. lia.
  - rewrite (pow2_nonpos k), (pow2_nonneg (- k)) by lia.
    rewrite <- Z.pow_add_r by lia. replace (k + j + - k)%Z with j by lia. lia.
Qed.

Lemma nearest_even_lower (N D : Z) : (N / D <= nearest_even N D)%Z.
Proof.
  unfold nearest_even. destruct (_ ?= _)%Z; [destruct (Z.even _)| |]; lia.
Qed.

Lemma nearest_even_whole (N : Z) : nearest_even N 1 = N.
Proof.
  unfold nearest_even. rewrite Z.mod_1_r, Z.div_1_r. reflexivity.
Qed.

(** The exponent of an integer is its binary logarithm. *)
Lemma floor_log2_integer (p : positive) : floor_log2 p 1 = Z.log2 (Zpos p).
Proof.
  unfold floor_log2. change (Z.log2 1) with 0%Z. rewrite Z.sub_0_r.
  pose proof (Z.log2_nonneg (Zpos p)) as Hnn.
  rewrite (pow2_nonneg _ Hnn), (pow2_nonpos (- Z.log2 (Zpos p))) by lia.
  destruct (Z.log2_spec (Zpos p)) as [Hlow _]; [lia|].
  destruct (Z.leb_spec (1 * 2 ^ Z.log2 (Zpos p)) (Zpos p * 1)); [reflexivity | lia].
Qed.

(** The exponent of a rational that is at least 1. *)
Lemma floor_log2_lower (n d : positive) :
  (Zpos d <= Zpos n)%Z ->
  (0 <= floor_log2 n d)%Z /\ (Zpos d * 2 ^ floor_log2 n d <= Zpos n)%Z.
Proof.
  intros Hle. unfold floor_log2.
  pose proof (Z.log2_le_mono _ _ Hle) as Hlog.
  pose proof (Z.log2_nonneg (Zpos d)) as Hd0.
  set (e := (Z.log2 (Zpos n) - Z.log2 (Zpos d))%Z).
  assert (He : (0 <= e)%Z) by (unfold e; lia).
  rewrite (pow2_nonneg e He), (pow2_nonpos (- e)) by lia.
  destruct (Z.leb_spec (Zpos d * 2 ^ e) (Zpos n * 1)) as [Htest|Htest].
  - split; lia.
  - assert (He1 : (1 <= e)%Z).
    { destruct (Z.eq_dec e 0%Z) as [E|E]; [|lia]. rewrite E in Htest. simpl in Htest. lia. }
    split; [lia|].
    destruct (Z.log2_spec (Zpos d)) as [_ Hd]; [lia|].
    destruct (Z.log2_spec (Zpos n)) as [Hn _]; [lia|].
    assert (Hpow : (2 ^ Z.succ (Z.log2 (Zpos d)) * 2 ^ (e - 1) = 2 ^ Z.log2 (Zpos n))%Z).
    { rewrite <- Z.pow_add_r by lia. f_equal. unfold e. lia. }
    assert (H2 : (0 < 2 ^ (e - 1))%Z) by (apply Z.pow_pos_nonneg; lia).
    nia.
Qed.

(** Rounding is monotone at 1: a rational that is at least 1 rounds to a
    Number that is at least 1. *)
Lemma round_positive_lower (n d : positive) :
  (Zpos d <= Zpos n)%Z ->
  round_positive n d = PInf \/ exists v, round_positive n d = Fin v /\ (1 <= v)%Q.
Proof.
  intros Hle. destruct (floor_log2_lower n d Hle) as [He Hlow].
  unfold round_positive. cbv zeta.
  set (e := floor_log2 n d) in *.
  replace (Z.max (-1074) (e - 52)) with (e - 52)%Z by lia.
  set (k := (e - 52)%Z).
  set (m := nearest_even (Zpos n * pow2 (- k)) (Zpos d * pow2 k)).
  destruct (Qle_bool _ _); [left; reflexivity|]. right. eexists. split; [reflexivity|].
  rewrite Qred_correct.
  pose proof (pow2_positive k) as Hk. pose proof (pow2_positive (- k)) as Hk'.
  assert (Hsplit : (pow2 k * 2 ^ 52 = 2 ^ e * pow2 (- k))%Z).
  { replace e with (k + 52)%Z by (unfold k; lia). apply pow2_split; unfold k; lia. }
  assert (He1 : (1 <= 2 ^ e)%Z) by (apply Z.lt_pred_le, Z.pow_pos_nonneg; lia).
  assert (Hm : (2 ^ 52 <= m)%Z).
  { eapply Z.le_trans; [|apply nearest_even_lower].
    apply Z.div_le_lower_bound; [lia|]. nia. }
  unfold Qle. cbn [Qnum Qden]. rewrite Z2Pos.id by exact Hk'. nia.
Qed.

Lemma round_not_below_one (q : Q) : (1 <= q)%Q -> ltb (round q) one = false.
Proof.
  intros Hq. rewrite <- (Qred_correct q) in Hq. unfold round.
  destruct (Qred q) as [num den]. unfold Qle in Hq. cbn [Qnum Qden] in Hq.
  destruct num as [|n|n]; try lia.
  destruct (round_positive_lower n den) as [-> | (v & -> & Hv)]; [lia|reflexivity|].
  unfold ltb, one, of_Z. rewrite negb_false_iff. apply Qle_bool_iff. exact Hv.
Qed.

Lemma round_not_NaN (q : Q) : round q <> NaN.
Proof.
  unfold round. destruct (Qred q) as [[|n|n] d]; [discriminate| |];
    unfold round_positive; cbv zeta; destruct (Qle_bool _ _); discriminate.
Qed.

(** A positive integer below 2^53 is a Number. *)
Lemma round_positive_small (p : positive) :
  (Zpos p < 2 ^ 53)%Z -> round_positive p 1 = of_Z (Zpos p).
Proof.
  intros Hp. unfold round_positive. cbv zeta. rewrite floor_log2_integer.
  assert (Hlog : (Z.log2 (Zpos p) < 53)%Z) by (apply Z.log2_lt_pow2; lia).
  pose proof (Z.log2_nonneg (Zpos p)) as Hnn.
  replace (Z.max (-1074) (Z.log2 (Zpos p) - 52)) with (Z.log2 (Zpos p) - 52)%Z by lia.
  set (k := (Z.log2 (Zpos p) - 52)%Z).
  rewrite (pow2_nonpos k) by (unfold k; lia).
  rewrite Z.mul_1_r, nearest_even_whole.
  pose proof (pow2_positive (- k)) as Hk'.
  replace (Qred (Zpos p * pow2 (- k) # Z.to_pos (pow2 (- k)))) with (inject_Z (Zpos p)).
  - replace (Qle_bool (inject_Z (2 ^ 1024)) (inject_Z (Zpos p))) with false; [reflexivity|].
    symmetry. apply not_true_iff_false. intros H. apply Qle_bool_iff in H.
    rewrite <- Zle_Qle in H.
    assert ((2 ^ 53 < 2 ^ 1024)%Z) by (apply Z.pow_lt_mono_r; lia). lia.
  - rewrite <- (inject_Z_Qred (Zpos p)). apply Qred_complete.
    unfold Qeq, inject_Z. cbn [Qnum Qden]. rewrite Z2Pos.id by exact Hk'. lia.
Qed.

(** Every positive integer rounds to an integer that is at least 1, or to
    +Infinity. *)
Lemma round_positive_whole (p : positive) :
  round_positive p 1 = PInf
  \/ exists m, (1 <= m)%Z /\ round_positive p 1 = of_Z m.
Proof.
  destruct (Z.lt_ge_cases (Zpos p) (2 ^ 53)%Z) as [Hsmall|Hbig].
  - right. exists (Zpos p). split; [lia | apply round_positive_small, Hsmall].
  - destruct (round_positive_lower p 1) as [-> | (v & Hv & Hone)]; [lia | auto |].
    right. revert Hv. unfold round_positive. cbv zeta. rewrite floor_log2_integer.
    assert (Hlog : (53 <= Z.log2 (Zpos p))%Z) by (apply Z.log2_le_pow2; lia).
    replace (Z.max (-1074) (Z.log2 (Zpos p) - 52)) with (Z.log2 (Zpos p) - 52)%Z by lia.
    set (k := (Z.log2 (Zpos p) - 52)%Z).
    rewrite (pow2_nonpos (- k)) by (unfold k; lia).
    set (m := nearest_even _ _). change (Z.to_pos 1) with 1%positive.
    change (m * pow2 k # 1) with (inject_Z (m * pow2 k)). rewrite inject_Z_Qred.
    destruct (Qle_bool _ _); [discriminate|]. intros [= <-].
    exists (m * pow2 k)%Z. split; [|reflexivity].
    unfold Qle, inject_Z in Hone. cbn [Qnum Qden] in Hone. lia.
Qed.

(** An integer of magnitude at most 2^53 is a Number. *)
Lemma round_of_Z (z : Z) :
  (Z.abs z <= 2 ^ 53)%Z -> round (inject_Z z) = of_Z z.
Proof.
  intros Hz. unfold round. rewrite inject_Z_Qred. unfold inject_Z at 1.
  assert (Htop : round_positive (Z.to_pos (2 ^ 53)) 1 = of_Z (2 ^ 53))
    by (vm_compute; reflexivity).
  assert (Hpos : forall p, (Zpos p <= 2 ^ 53)%Z -> round_positive p 1 = of_Z (Zpos p)).
  { intros p Hp. destruct (Z.eq_dec (Zpos p) (2 ^ 53)%Z) as [E|E].
    - assert (p = Z.to_pos (2 ^ 53)) as -> by (rewrite <- E; reflexivity).
      exact Htop.
    - apply round_positive_small. lia. }
  destruct z as [|p|p]; [reflexivity| |].
  - apply Hpos. lia.
  - rewrite Hpos by lia. apply opp_of_Z.
Qed.

(** Every integer rounds to an integer of its sign, or to an infinity of
    its sign. *)
Lemma round_whole (z : Z) :
  (1 <= z)%Z ->
  round (inject_Z z) = PInf \/ exists m, (1 <= m)%Z /\ round (inject_Z z) = of_Z m.
Proof.
  intros Hz. unfold round. rewrite inject_Z_Qred. unfold inject_Z.
  destruct z as [|p|p]; try lia. apply round_positive_whole.
Qed.

Lemma round_whole_opp (z : Z) :
  (z <= -1)%Z ->
  round (inject_Z z) = NInf \/ exists m, (m <= -1)%Z /\ round (inject_Z z) = of_Z m.
Proof.
  intros Hz. unfold round. rewrite inject_Z_Qred. unfold inject_Z.
  destruct z as [|p|p]; try lia.
  destruct (round_positive_whole p) as [-> | (m & Hm & ->)]; [left; reflexivity|].
  right. exists (- m)%Z. split; [lia | apply opp_of_Z].
Qed.

(** Rounding at work: 0.1 is not one tenth, 2^53 + 1 is halfway between
    two Numbers and goes to the even one, 10^400 overflows, and half of the
    smallest positive Number goes to 0. *)
Example round_examples :
  round (1 # 10) = Fin (3602879701896397 # 36028797018963968)
  /\ round (inject_Z (2 ^ 53 + 1)) = of_Z (2 ^ 53)
  /\ round (inject_Z (2 ^ 53 + 3)) = of_Z (2 ^ 53 + 4)
  /\ round (inject_Z (10 ^ 400)) = PInf
  /\ round (1 # Z.to_pos (2 ^ 1074)) = Fin (1 # Z.to_pos (2 ^ 1074))
  /\ round (1 # Z.to_pos (2 ^ 1075)) = Fin 0
  /\ add (of_Z (2 ^ 53)) one = of_Z (2 ^ 53)
  /\ mul (round (1 # 10)) (of_Z 3) = round (30000000000000004 # 100000000000000000).
Proof. repeat split; vm_compute; reflexivity. Qed.

(** Rounding depends on the rational, not on the fraction that writes it. *)
Lemma round_proper (x y : Q) : (x == y)%Q -> round x = round y.
Proof. intros H. unfold round. rewrite (Qred_complete x y H). reflexivity. Qed.

Lemma add_of_Z (a b : Z) :
  (Z.abs (a + b) <= 2 ^ 53)%Z -> add (of_Z a) (of_Z b) = of_Z (a + b).
Proof.
  intros H. rewrite <- (round_of_Z _ H). apply round_proper.
  rewrite inject_Z_plus. reflexivity.
Qed.

Lemma sub_of_Z (a b : Z) :
  (Z.abs (a - b) <= 2 ^ 53)%Z -> sub (of_Z a) (of_Z b) = of_Z (a - b).
Proof.
  intros H. rewrite <- (round_of_Z _ H). apply round_proper.
  unfold Z.sub. rewrite inject_Z_plus, inject_Z_opp. reflexivity.
Qed.

Lemma mul_of_Z (a b : Z) :
  (Z.abs (a * b) <= 2 ^ 53)%Z -> mul (of_Z a) (of_Z b) = of_Z (a * b).
Proof.
  intros H. rewrite <- (round_of_Z _ H). apply round_proper.
  rewrite inject_Z_mult. reflexivity.
Qed.

(** The sum and the difference of two integers are integers, or
    infinite. *)
Lemma add_whole (a b : Z) :
  (1 <= a + b)%Z ->
  add (of_Z a) (of_Z b) = PInf
  \/ exists m, (1 <= m)%Z /\ add (of_Z a) (of_Z b) = of_Z m.
Proof.
  intros H. replace (add (of_Z a) (of_Z b)) with (round (inject_Z (a + b))).
  - apply round_whole, H.
  - apply round_proper. rewrite inject_Z_plus. reflexivity.
Qed.

Lemma sub_whole (a b : Z) :
  sub (of_Z a) (of_Z b) = PInf \/ sub (of_Z a) (of_Z b) = NInf
  \/ exists m, sub (of_Z a) (of_Z b) = of_Z m.
Proof.
  replace (sub (of_Z a) (of_Z b)) with (round (inject_Z (a - b))).
  - destruct (Z.lt_trichotomy (a - b) 0) as [Hlt | [Heq | Hgt]].
    + destruct (round_whole_opp (a - b)) as [-> | (m & _ & ->)]; [lia| |]; eauto.
    + rewrite Heq. right. right. exists 0%Z. reflexivity.
    + destruct (round_whole (a - b)) as [-> | (m & _ & ->)]; [lia| |]; eauto.
  - apply round_proper. unfold Z.sub. rewrite inject_Z_plus, inject_Z_opp. reflexivity.
Qed.

End NumberFacts.

(** * Facts about the cart store *)

Module CartFacts.
Import CartContext.

(** ** Lists of lines *)

Lemma map_if_none {A} (p : A -> bool) (f : A -> A) (l : list A) :
  (forall i, i ∈ l -> p i = false) ->
  map (fun i => if p i then f i else i) l = l.
Proof.
  induction l as [|a l IH]; intros H; simpl; [reflexivity|].
  rewrite (H a) by apply list_elem_of_here.
  f_equal. apply IH. intros i Hi. apply H. by apply list_elem_of_further.
Qed.

Lemma find_none_all {A} (p : A -> bool) (l : list A) :
  List.find p l = None <-> (forall i, i ∈ l -> p i = false).
Proof.
  split.
  - intros H i Hi. apply list_elem_of_In in Hi. exact (find_none p l H i Hi).
  - induction l as [|a l IH]; intros H; simpl; [reflexivity|].
    rewrite (H a) by apply list_elem_of_here.
    apply IH. intros i Hi. apply H. by apply list_elem_of_further.
Qed.

Lemma state_eq (state : CartState) (l : list CartItem) :
  l = items state -> {| items := l |} = state.
Proof. destruct state. simpl. intros ->. reflexivity. Qed.

(** ** Property names *)

Lemma id_is_not_quantity : js "quantity" ≠ js "id".
Proof. discriminate. Qed.


(** ** setQuantity *)

(** C1 (as amended): a requested quantity below 1 is clamped: the public
    [updateQuantity] sets the quantity of every line with that id to 1 and
    keeps the line; only the reducer's UPDATE_QTY transition, when given a
    quantity below 1, returns the state as it was. *)
Theorem updateQuantity_below_one_clamps
    (state : CartState) (id : jstring) (q : number) :
  Number.ltb q Number.one = true ->
  updateQuantity state id q
  = {| items := map (fun i => if has_id id i then with_quantity i Number.one else i)
                    (items state) |}
  /\ reducer state (UPDATE_QTY id q) = state.
Proof.
  intros Hq. split.
  - unfold updateQuantity. rewrite (NumberFacts.clamp_below_one q Hq). reflexivity.
  - simpl. rewrite Hq. reflexivity.
Qed.

Lemma updateQuantity_below_one_clamps_witness :
  Number.ltb (Number.Fin (1 # 2)) Number.one = true
  /\ items (updateQuantity {| items := [line "a" 100 5; line "b" 20 3] |} (js "a")
             (Number.Fin (1 # 2)))
     = [line "a" 100 1; line "b" 20 3].
Proof.
  split; [reflexivity|].
  rewrite (proj1 (updateQuantity_below_one_clamps _ (js "a") (Number.Fin (1 # 2))
                    eq_refl)).
  reflexivity.
Defined.

(** C1 (as stated) fails: setting the quantity of a line that holds 5 to 0
    stores 1, not 5. *)
Lemma updateQuantity_below_one_changes_quantity :
  let state := {| items := [line "a" 100 5] |} in
  Number.ltb Number.zero Number.one = true
  /\ (exists i, i ∈ items state /\ has_id (js "a") i = true)
  /\ map quantity (items state) = [Number.of_Z 5]
  /\ map quantity (items (updateQuantity state (js "a") Number.zero)) = [Number.of_Z 1].
Proof.
  simpl. split; [reflexivity|]. split.
  - eexists. split; [apply list_elem_of_here|]. reflexivity.
  - split; reflexivity.
Qed.

(** ** Operations on an id the cart does not hold *)

(** C9: when no line has the given id, [updateQuantity], [increaseQty] and
    [decreaseQty] return the snapshot as it was, and complete normally. *)
Theorem quantity_operations_on_absent_id
    (state : CartState) (id : jstring) (q : number) (d : option number) :
  (forall i, i ∈ items state -> has_id id i = false) ->
  perform state (SetQuantity id q) = Normal state
  /\ perform state (IncreaseQuantity id d) = Normal state
  /\ perform state (DecreaseQuantity id d) = Normal state.
Proof.
  intros Habsent. simpl.
  unfold updateQuantity, increaseQty, decreaseQty, reducer.
  repeat split; f_equal.
  - destruct (Number.ltb _ _); [reflexivity|].
    apply state_eq, map_if_none, Habsent.
  - apply state_eq, map_if_none, Habsent.
  - apply state_eq, map_if_none, Habsent.
Qed.

Lemma quantity_operations_on_absent_id_witness :
  let state := {| items := [line "a" 100 2] |} in
  perform state (SetQuantity (js "b") (Number.of_Z 7)) = Normal state
  /\ perform state (IncreaseQuantity (js "b") (Some (Number.of_Z 3))) = Normal state
  /\ perform state (DecreaseQuantity (js "b") (Some (Number.of_Z 3))) = Normal state.
Proof.
  apply quantity_operations_on_absent_id.
  intros i Hi. apply list_elem_of_singleton in Hi. subst i. reflexivity.
Defined.

(** ** add on an id the cart holds *)

(** Whether a line has the id of the item being added. *)
Lemma same_id_as_item (item i : CartItem) (id : jstring) (q : number) :
  props item !! js "id" = Some (VStr id) ->
  strict_equals (id_of i) (id_of (with_quantity item q)) = has_id id i.
Proof. intros Hid. unfold has_id, id_of at 2, get. simpl. rewrite Hid. reflexivity. Qed.

(** An add of an id the cart holds rewrites the quantity of the lines with
    that id. *)
Lemma addToCart_merges (state : CartState) (item : CartItem) (id : jstring) :
  props item !! js "id" = Some (VStr id) ->
  (exists i, i ∈ items state /\ has_id id i = true) ->
  items (addToCart state item)
  = map (fun i => if has_id id i
                  then with_quantity i
                         (Number.add (quantity i) (safe_number (quantity item)))
                  else i)
        (items state).
Proof.
  intros Hid Hex. unfold addToCart, reducer.
  destruct (List.find _ (items state)) as [existing|] eqn:Hfind; simpl.
  - apply map_ext. intros i. rewrite (same_id_as_item item i id _ Hid). reflexivity.
  - destruct Hex as (i & Hi & Hp).
    rewrite <- (same_id_as_item item i id (safe_number (quantity item)) Hid) in Hp.
    rewrite (proj1 (find_none_all _ _) Hfind i Hi) in Hp. discriminate.
Qed.

(** C10: adding an item whose id a line already has changes the quantity
    of that line and nothing else: every line keeps its place and its
    properties (those of the incoming item are dropped), and a line with
    another id is as it was. *)
Theorem addToCart_existing_id
    (state : CartState) (item : CartItem) (id : jstring) :
  props item !! js "id" = Some (VStr id) ->
  (exists i, i ∈ items state /\ has_id id i = true) ->
  items (addToCart state item)
  = map (fun i => if has_id id i
                  then with_quantity i
                         (Number.add (quantity i) (safe_number (quantity item)))
                  else i)
        (items state)
  /\ map props (items (addToCart state item)) = map props (items state)
  /\ (forall n i, items state !! n = Some i -> has_id id i = false ->
                  items (addToCart state item) !! n = Some i).
Proof.
  intros Hid Hex. pose proof (addToCart_merges state item id Hid Hex) as Hitems.
  split; [exact Hitems|]. split.
  - rewrite Hitems, map_map. apply map_ext. intros i.
    destruct (has_id id i); reflexivity.
  - intros n i Hn Hi. rewrite Hitems, list_lookup_fmap, Hn. simpl.
    rewrite Hi. reflexivity.
Qed.

Lemma addToCart_existing_id_witness :
  items (addToCart {| items := [line "b" 20 1; line "a" 100 2] |}
           {| quantity := Number.of_Z 3;
              props := <[js "name" := VStr (js "other")]> (props (line "a" 999 3)) |})
  = [line "b" 20 1; line "a" 100 5].
Proof.
  refine (eq_trans (proj1 (addToCart_existing_id _ _ (js "a") _ _)) _).
  - reflexivity.
  - exists (line "a" 100 2). split; [|reflexivity].
    apply list_elem_of_further, list_elem_of_here.
  - reflexivity.
Defined.

(** ** Totals *)

(** The running total from [a]: the first price that does not convert
    stops it, and otherwise the products are added to [a] from left to
    right. *)
Lemma running_total (l : list CartItem) (a : number) :
  reduce_completion
    (fun sum it =>
       price ← ToNumber (price_of it);
       Normal (Number.add sum (Number.mul price (quantity it))))
    l a
  = (totals ← map_completion line_total l; Normal (fold_left Number.add totals a)).
Proof.
  revert a. induction l as [|i l IH]; intros a;
    cbn [reduce_completion map_completion]; [reflexivity|].
  destruct (ToNumber (price_of i)) as [p|err] eqn:Hp.
  - replace (line_total i) with (Normal (A:=number) (Number.mul p (quantity i)))
      by (unfold line_total; rewrite Hp; reflexivity).
    cbn [mbind completion_bind]. rewrite IH.
    destruct (map_completion line_total l) as [totals|err]; reflexivity.
  - replace (line_total i) with (Throw (A:=number) err)
      by (unfold line_total; rewrite Hp; reflexivity).
    reflexivity.
Qed.

Lemma total_of_nonnegative (l : list Z) :
  Forall (fun n => (0 <= n)%Z) l -> (0 <= total_of l)%Z.
Proof. induction 1 as [|n l Hn _ IH]; simpl; lia. Qed.

Lemma products_nonnegative (lines : list (Z * Z)) :
  Forall (fun pq => (0 <= fst pq)%Z /\ (0 <= snd pq)%Z) lines ->
  Forall (fun n => (0 <= n)%Z) (map (fun pq => (fst pq * snd pq)%Z) lines).
Proof. intros H. apply Forall_fmap. eapply Forall_impl; [exact H|]. simpl. nia. Qed.

(** The running total of lines whose prices and quantities are integers
    that are not negative is exact as long as it stays within 2^53. *)
Lemma running_total_of_whole_lines (l : list CartItem) (lines : list (Z * Z)) (a : Z) :
  Forall2 whole_line l lines ->
  Forall (fun pq => (0 <= fst pq)%Z /\ (0 <= snd pq)%Z) lines ->
  (0 <= a)%Z ->
  (a + total_of (map (fun pq => (fst pq * snd pq)%Z) lines) <= 2 ^ 53)%Z ->
  reduce_completion
    (fun sum it =>
       price ← ToNumber (price_of it);
       Normal (Number.add sum (Number.mul price (quantity it))))
    l (Number.of_Z a)
  = Normal (Number.of_Z (a + total_of (map (fun pq => (fst pq * snd pq)%Z) lines))).
Proof.
  intros Hlines. revert a.
  induction Hlines as [|i [p q] l lines [Hprice Hquantity] _ IH];
    intros a Hsigns Ha Hbound; cbn [reduce_completion map total_of fold_right] in *.
  - rewrite Z.add_0_r. reflexivity.
  - apply Forall_cons in Hsigns as [[Hp Hq] Hsigns]. cbn [fst snd] in *.
    pose proof (total_of_nonnegative _ (products_nonnegative _ Hsigns)) as Hrest.
    fold (total_of (map (fun pq => (fst pq * snd pq)%Z) lines)) in *.
    rewrite Hprice, Hquantity. cbn [ToNumber ToPrimitive_throws numeric_value].
    cbn [mbind completion_bind].
    rewrite NumberFacts.mul_of_Z by nia.
    rewrite NumberFacts.add_of_Z by nia.
    rewrite IH by (auto; nia). f_equal. f_equal. lia.
Qed.

(** C6 (as amended): the total is the sum over all lines of price ×
    quantity as the arithmetic of Numbers computes it: each product is
    rounded, the products are added from left to right starting at 0, and
    the first price that does not convert to a Number makes the total
    throw. The total is the exact sum of the products whenever prices and
    quantities are integers that are not negative and that sum is at most
    2^53. The total is computed from the lines alone. *)
Theorem getCartTotal_is_sum (state : CartState) :
  getCartTotal state
  = (totals ← map_completion line_total (items state); Normal (sum_of totals))
  /\ (forall lines : list (Z * Z),
        Forall2 whole_line (items state) lines ->
        Forall (fun pq => (0 <= fst pq)%Z /\ (0 <= snd pq)%Z) lines ->
        (total_of (map (fun pq => (fst pq * snd pq)%Z) lines) <= 2 ^ 53)%Z ->
        getCartTotal state
        = Normal (Number.of_Z (total_of (map (fun pq => (fst pq * snd pq)%Z) lines))))
  /\ (forall state', items state' = items state ->
                     getCartTotal state' = getCartTotal state).
Proof.
  split; [|split].
  - unfold getCartTotal. apply running_total.
  - intros lines Hlines Hsigns Hbound. unfold getCartTotal.
    change Number.zero with (Number.of_Z 0).
    rewrite (running_total_of_whole_lines _ lines 0 Hlines Hsigns); [reflexivity|lia|lia].
  - intros state' H. unfold getCartTotal. rewrite H. reflexivity.
Qed.

Lemma getCartTotal_is_sum_witness :
  getCartTotal {| items := [line "a" 100 2; line "b" 20 3] |}
  = Normal (Number.of_Z 260).
Proof.
  apply (proj1 (proj2 (getCartTotal_is_sum _)) [(100, 2); (20, 3)]%Z).
  - repeat constructor.
  - repeat constructor; simpl; lia.
  - vm_compute. discriminate.
Defined.

(** C6 (as stated) fails: the total of one line with price 0.1 and
    quantity 3 is the Number 0.30000000000000004, which is not the product
    of the price and the quantity. *)
Lemma getCartTotal_is_rounded :
  let price := (3602879701896397 # 36028797018963968)%Q in
  let total := (1351079888211149 # 4503599627370496)%Q in
  let state :=
    {| items := [{| quantity := Number.of_Z 3;
                    props := {[ js "price" := VNum (Number.Fin price) ]} |}] |} in
  Number.round (1 # 10) = Number.Fin price
  /\ Number.round (30000000000000004 # 100000000000000000) = Number.Fin total
  /\ getCartTotal state = Normal (Number.Fin total)
  /\ ~ (total == price * 3)%Q.
Proof.
  repeat split; try (vm_compute; reflexivity).
  intros H. vm_compute in H. discriminate H.
Qed.

(** ** Repeated adds of one id *)

(** What [addToCart] makes of a quantity is what the specification
    describes. *)
Lemma safe_number_sanitized (n : number) : safe_number n = sanitized n.
Proof.
  destruct n as [| | |x]; try reflexivity.
  unfold safe_number, sanitized, Number.truthy. simpl Number.isNaN. cbv iota.
  destruct (Qeq_bool x 0) eqn:E; simpl negb; cbv iota; [|reflexivity].
  apply Qeq_bool_eq in E. unfold Qeq in E. simpl in E. rewrite Z.mul_1_r in E.
  rewrite NumberFacts.clamp_finite, E. reflexivity.
Qed.

(** The first add of an id appends a line. *)
Lemma addToCart_new_id (state : CartState) (item : CartItem) (id : jstring) :
  props item !! js "id" = Some (VStr id) ->
  (forall i, i ∈ items state -> has_id id i = false) ->
  items (addToCart state item)
  = items state ++ [with_quantity item (safe_number (quantity item))].
Proof.
  intros Hid Habsent. unfold addToCart, reducer.
  destruct (List.find _ (items state)) as [existing|] eqn:Hfind; [|reflexivity].
  apply find_some in Hfind as [Hin Hp].
  rewrite (same_id_as_item item existing id _ Hid) in Hp.
  apply list_elem_of_In in Hin. rewrite (Habsent existing Hin) in Hp. discriminate.
Qed.

(** Further adds of that id increase the quantity of the line. *)
Lemma addToCart_again (before : list CartItem) (merged : CartItem)
    (rest : list CartItem) (id : jstring) :
  (forall i, i ∈ before -> has_id id i = false) ->
  has_id id merged = true ->
  Forall (fun item => props item !! js "id" = Some (VStr id)) rest ->
  items (fold_left addToCart rest {| items := before ++ [merged] |})
  = before ++ [with_quantity merged
                 (fold_left (fun sum item => Number.add sum (safe_number (quantity item)))
                            rest (quantity merged))].
Proof.
  intros Hbefore. revert merged.
  induction rest as [|item rest IH]; intros merged Hmerged Hrest; simpl.
  - destruct merged; reflexivity.
  - apply Forall_cons in Hrest as [Hitem Hrest].
    pose proof (addToCart_merges {| items := before ++ [merged] |} item id Hitem)
      as Hitems.
    lapply Hitems; [clear Hitems; intros Hitems|].
    2: { exists merged. split; [|exact Hmerged]. apply elem_of_app. right.
         apply list_elem_of_here. }
    simpl in Hitems. rewrite map_app, (map_if_none _ _ before Hbefore) in Hitems.
    simpl in Hitems. rewrite Hmerged in Hitems.
    rewrite <- (state_eq (addToCart {| items := before ++ [merged] |} item) _
                  (eq_sym Hitems)).
    apply IH; [exact Hmerged | exact Hrest].
Qed.

(** A quantity other than +Infinity is sanitized to an integer that is at
    least 1. *)
Lemma sanitized_is_integer (n : number) :
  n <> Number.PInf ->
  sanitized n = Number.of_Z (sanitized_integer n) /\ (1 <= sanitized_integer n)%Z.
Proof.
  intros Hn. destruct n as [| | |x]; try contradiction; try (split; [reflexivity | simpl; lia]).
  split; [apply NumberFacts.clamp_finite | simpl; lia].
Qed.

(** Sanitized quantities that are added to an integer give the exact sum
    as long as it stays within 2^53. *)
Lemma sanitized_sum (rest : list CartItem) (a : Z) :
  Forall (fun item => quantity item <> Number.PInf) rest ->
  (1 <= a)%Z ->
  (a + total_of (map (fun item => sanitized_integer (quantity item)) rest) <= 2 ^ 53)%Z ->
  fold_left (fun sum item => Number.add sum (sanitized (quantity item)))
            rest (Number.of_Z a)
  = Number.of_Z (a + total_of (map (fun item => sanitized_integer (quantity item)) rest)).
Proof.
  intros Hrest. revert a.
  induction Hrest as [|item rest Hitem _ IH]; intros a Ha Hbound;
    cbn [fold_left map total_of fold_right] in *.
  - rewrite Z.add_0_r. reflexivity.
  - fold (total_of (map (fun item => sanitized_integer (quantity item)) rest)) in *.
    destruct (sanitized_is_integer _ Hitem) as [-> Hone].
    assert (Hnn : (0 <= total_of (map (fun item => sanitized_integer (quantity item)) rest))%Z).
    { apply total_of_nonnegative, Forall_fmap, Forall_forall. intros i _. simpl.
      destruct (quantity i); simpl; lia. }
    rewrite NumberFacts.add_of_Z by lia.
    rewrite IH by lia. f_equal. lia.
Qed.

(** C5 (as amended): adds of one id, to a cart that has no line with it,
    leave a single line with that id whose quantity is the sum of the
    added quantities, each sanitized to max(1, truncate(quantity)) or to 1
    when it is not a number, as the arithmetic of Numbers adds them in the
    order of the calls; it is their exact sum whenever no quantity is
    +Infinity and that sum is at most 2^53. *)
Theorem add_same_id_sums
    (state : CartState) (id : jstring) (first : CartItem) (rest : list CartItem) :
  (forall i, i ∈ items state -> has_id id i = false) ->
  Forall (fun item => props item !! js "id" = Some (VStr id)) (first :: rest) ->
  exists merged,
    items (fold_left addToCart (first :: rest) state) = items state ++ [merged]
    /\ id_of merged = VStr id
    /\ props merged = props first
    /\ quantity merged
       = fold_left (fun sum item => Number.add sum (sanitized (quantity item)))
                   rest (sanitized (quantity first))
    /\ (Forall (fun item => quantity item <> Number.PInf) (first :: rest) ->
        (total_of (map (fun item => sanitized_integer (quantity item)) (first :: rest))
         <= 2 ^ 53)%Z ->
        quantity merged
        = Number.of_Z
            (total_of (map (fun item => sanitized_integer (quantity item))
                           (first :: rest)))).
Proof.
  intros Habsent Hadds.
  apply Forall_cons in Hadds as [Hfirst Hrest].
  set (merged := with_quantity first (safe_number (quantity first))).
  assert (Hmerged : id_of merged = VStr id).
  { unfold merged, id_of, get. simpl. rewrite Hfirst. reflexivity. }
  assert (Hsum : fold_left (fun sum item => Number.add sum (safe_number (quantity item)))
                           rest (quantity merged)
                 = fold_left (fun sum item => Number.add sum (sanitized (quantity item)))
                             rest (sanitized (quantity first))).
  { unfold merged. cbn [quantity with_quantity]. rewrite safe_number_sanitized.
    generalize (sanitized (quantity first)) as a.
    induction rest as [|item rest' IH]; intros a; cbn [fold_left]; [reflexivity|].
    rewrite safe_number_sanitized. apply IH.
    apply Forall_cons in Hrest as [_ Hrest]. exact Hrest. }
  eexists. split; [|split; [|split; [|split]]].
  - simpl. rewrite <- (state_eq (addToCart state first) _
                         (eq_sym (addToCart_new_id state first id Hfirst Habsent))).
    apply (addToCart_again (items state) merged rest id Habsent); [|exact Hrest].
    unfold has_id. rewrite Hmerged. simpl. apply bool_decide_eq_true. reflexivity.
  - exact Hmerged.
  - reflexivity.
  - cbn [quantity with_quantity]. exact Hsum.
  - intros Hfinite Hbound. cbn [quantity with_quantity]. rewrite Hsum.
    apply Forall_cons in Hfinite as [Hfinite_first Hfinite_rest].
    destruct (sanitized_is_integer _ Hfinite_first) as [-> Hone].
    cbn [map total_of fold_right] in *.
    apply sanitized_sum; assumption.
Qed.

Lemma add_same_id_sums_witness :
  let state := fold_left addToCart [line "a" 100 2; line "a" 100 3] initialState in
  items state = [line "a" 100 5] /\ getCartTotal state = Normal (Number.of_Z 500).
Proof.
  destruct (add_same_id_sums initialState (js "a") (line "a" 100 2) [line "a" 100 3])
    as (merged & Hitems & _ & Hprops & _ & Hquantity).
  - intros i Hi. inversion Hi.
  - repeat constructor.
  - assert (Hline : merged = line "a" 100 5).
    { destruct merged as [q p]. simpl in Hprops. subst p.
      cbn [quantity] in Hquantity. rewrite Hquantity.
      + reflexivity.
      + repeat constructor; discriminate.
      + vm_compute. discriminate. }
    rewrite Hline in Hitems. cbv zeta. split.
    + exact Hitems.
    + unfold getCartTotal. rewrite Hitems. vm_compute. reflexivity.
Defined.

(** C5 (as stated) fails: after adds of the quantities 2^53, 1 and 1 the
    line holds 2^53, which is not their sum. *)
Lemma add_same_id_drops_small_quantities :
  let adds :=
    [with_quantity (line "a" 100 1) (Number.of_Z (2 ^ 53)); line "a" 100 1;
     line "a" 100 1] in
  map (fun item => sanitized (quantity item)) adds
  = [Number.of_Z (2 ^ 53); Number.of_Z 1; Number.of_Z 1]
  /\ map quantity (items (fold_left addToCart adds initialState))
     = [Number.of_Z (2 ^ 53)]
  /\ Number.of_Z (2 ^ 53) <> Number.of_Z (2 ^ 53 + 1 + 1).
Proof.
  repeat split; try (vm_compute; reflexivity).
  intros H. vm_compute in H. discriminate H.
Qed.

(** ** The sanitization pass *)

(** A falsy value is a primitive, and converts. *)
Lemma falsy_converts (q : value) : ToBoolean q = false -> ToPrimitive_throws q = false.
Proof. destruct q; simpl; try reflexivity; discriminate. Qed.

Lemma safe_quantity_cases (q : value) :
  safe_quantity q
  = if ToPrimitive_throws q then Throw TypeError else Normal (clamped_quantity q).
Proof.
  unfold safe_quantity, clamped_quantity, ToNumber, or_else.
  destruct (ToBoolean q) eqn:Hq.
  - destruct (ToPrimitive_throws q); reflexivity.
  - rewrite (falsy_converts q Hq). reflexivity.
Qed.

Lemma sanitize_element (p : value) :
  sanitize p = if rejected p then Throw TypeError else Normal (sanitized_line p).
Proof.
  unfold sanitize, rejected, sanitized_line.
  destruct p; try reflexivity; cbn [read_quantity nullish orb mbind completion_bind];
    rewrite safe_quantity_cases; destruct (ToPrimitive_throws _); reflexivity.
Qed.

(** The pass over an array stops with a TypeError at an element it
    rejects, and otherwise gives the line of each element. *)
Lemma sanitize_elements (elems : list value) :
  map_completion sanitize elems
  = if existsb rejected elems then Throw TypeError
    else Normal (map sanitized_line elems).
Proof.
  induction elems as [|p elems IH]; cbn [map_completion existsb map]; [reflexivity|].
  rewrite sanitize_element, IH.
  destruct (rejected p); [reflexivity|].
  destruct (existsb rejected elems); reflexivity.
Qed.

Lemma id_of_sanitized_line (p : value) : id_of (sanitized_line p) = element_id p.
Proof.
  unfold id_of, element_id, get. simpl.
  rewrite lookup_delete_ne by apply id_is_not_quantity. reflexivity.
Qed.

Lemma positive_integer_one : positive_integer Number.one.
Proof. exists 1%Z. split; [lia | reflexivity]. Qed.

(** A number other than NaN and +Infinity is sanitized to an integer that
    is at least 1. *)
Lemma clamp_positive_integer (n : number) :
  n <> Number.NaN -> n <> Number.PInf ->
  positive_integer (Number.Math_max Number.one (Number.Math_trunc n)).
Proof.
  intros HNaN HInf. destruct n as [| | |x]; try contradiction.
  - apply positive_integer_one.
  - rewrite NumberFacts.clamp_finite. eexists. split; [|reflexivity]. lia.
Qed.

Lemma safe_number_positive_integer (n : number) :
  n <> Number.PInf -> positive_integer (safe_number n).
Proof.
  intros HInf. unfold safe_number.
  destruct (Number.truthy n) eqn:Hn; [|apply positive_integer_one].
  apply clamp_positive_integer; [|exact HInf]. intros ->. discriminate Hn.
Qed.

(** What the pass makes of a plain quantity is an integer that is at
    least 1, and the pass does not throw on it. *)
Lemma clamped_quantity_number (n : number) :
  clamped_quantity (VNum n) = safe_number n.
Proof.
  unfold clamped_quantity, safe_number, or_else, ToBoolean.
  destruct (Number.truthy n); reflexivity.
Qed.

Lemma clamped_quantity_plain (q : value) :
  plain_quantity q ->
  ToPrimitive_throws q = false /\ positive_integer (clamped_quantity q).
Proof.
  intros Hq. destruct q as [| |b|n| | |]; try contradiction;
    (split; [reflexivity|]); try apply positive_integer_one.
  - destruct b; apply positive_integer_one.
  - rewrite clamped_quantity_number.
    apply safe_number_positive_integer. intros ->. contradiction.
Qed.

(** The lines the pass makes of elements with plain quantities have
    quantities that are integers of at least 1. *)
Lemma parsed_quantities_valid (elems : list value) :
  Forall (fun p => plain_quantity (stored_quantity p)) elems ->
  quantities_valid {| items := map sanitized_line elems |}.
Proof.
  intros Hplain. unfold quantities_valid. cbn [items]. apply Forall_fmap.
  eapply Forall_impl; [exact Hplain|]. intros p Hp. apply clamped_quantity_plain, Hp.
Qed.

(** ** Hydration *)

(** Hydration completes normally whatever the storage holds. *)
Lemma hydrate_never_throws (isBrowser : bool) (getItem : completion (option jstring))
    (state : CartState) :
  exists state', hydrate isBrowser getItem state = Normal state'.
Proof.
  unfold hydrate. destruct isBrowser; simpl; [|eauto].
  destruct (_ ≫= _); simpl; eauto.
Qed.

(** What hydration does in a browser. *)
Lemma hydrate_cases (getItem : completion (option jstring)) (state : CartState) :
  hydrate true getItem state
  = match getItem with
    | Normal (Some (c :: text)) =>
        match JSON_parse (c :: text) with
        | Normal (VArr elems) =>
            if existsb rejected elems then Normal {| items := [] |}
            else Normal {| items := map sanitized_line elems |}
        | _ => Normal {| items := [] |}
        end
    | _ => Normal {| items := [] |}
    end.
Proof.
  unfold hydrate. simpl.
  destruct getItem as [[[|c text]|]|err]; simpl; try reflexivity.
  destruct (JSON_parse (c :: text)) as [v|err]; simpl; [|reflexivity].
  destruct v; simpl; try reflexivity.
  rewrite sanitize_elements. destruct (existsb rejected elems); reflexivity.
Qed.

(** C7: when the durable storage cannot be read, holds nothing, holds text
    that is not JSON, or holds JSON that is not an array (or an array with
    an element the sanitization pass throws on), hydration leaves the empty
    snapshot and completes normally. *)
Theorem hydrate_unusable_storage
    (isBrowser : bool) (getItem : completion (option jstring)) (state : CartState) :
  unusable getItem ->
  hydrate true getItem state = Normal {| items := [] |}
  /\ hydrate isBrowser getItem initialState = Normal {| items := [] |}.
Proof.
  intros Hbad.
  assert (H : forall state, hydrate true getItem state = Normal {| items := [] |}).
  { intros st. rewrite hydrate_cases.
    destruct Hbad as [[e ->] | [-> | (text & -> & Htext)]]; try reflexivity.
    destruct text as [|c text]; [reflexivity|].
    destruct Htext as [[e ->] | [(v & -> & Hv) | (elems & -> & Hrej)]].
    - reflexivity.
    - destruct v; try discriminate; reflexivity.
    - rewrite Hrej. reflexivity. }
  split; [apply H|]. destruct isBrowser; [apply H | reflexivity].
Qed.

Lemma hydrate_unusable_storage_witness :
  JSON_parse (js "not-json") = Throw SyntaxError
  /\ hydrate true (Normal (Some (js "not-json"))) {| items := [line "a" 100 2] |}
     = Normal {| items := [] |}
  /\ hydrate true (Normal (Some (js "not-json"))) initialState = Normal {| items := [] |}.
Proof.
  split; [vm_compute; reflexivity|].
  apply (hydrate_unusable_storage true).
  right. right. exists (js "not-json"). split; [reflexivity|].
  left. exists SyntaxError. vm_compute. reflexivity.
Defined.

(** ** Cross-tab synchronisation *)

(** What the storage listener does on the cart's key. *)
Lemma onStorage_cases (e : StorageEvent) (state : CartState) :
  key e = Some STORAGE_KEY ->
  onStorage e state
  = match newValue e with
    | None | Some [] => Normal {| items := [] |}
    | Some text =>
        match JSON_parse text with
        | Normal (VArr elems) =>
            if existsb rejected elems then Normal state
            else Normal {| items := map sanitized_line elems |}
        | _ => Normal state
        end
    end.
Proof.
  intros Hkey. unfold onStorage. rewrite Hkey.
  rewrite bool_decide_eq_true_2 by reflexivity. simpl.
  destruct (newValue e) as [[|c text]|]; simpl; try reflexivity.
  destruct (JSON_parse (c :: text)) as [v|err]; simpl; [|reflexivity].
  destruct v; simpl; try reflexivity.
  rewrite sanitize_elements. destruct (existsb rejected elems); reflexivity.
Qed.

Lemma onStorage_other_key (e : StorageEvent) (state : CartState) :
  key e <> Some STORAGE_KEY -> onStorage e state = Normal state.
Proof.
  intros Hkey. unfold onStorage. rewrite bool_decide_eq_false_2 by exact Hkey.
  reflexivity.
Qed.

(** C4 (as amended): on a change notification for the cart's key the
    store (1) empties the snapshot when the new value is absent or empty,
    (2) replaces the snapshot with the lines of the externally written
    array, each with its quantity replaced by max(1, trunc(quantity || 1)),
    which is an integer that is at least 1 whenever the stored quantity is
    a number other than +Infinity (the Number of a literal that overflows,
    such as 1e400), a boolean, null or missing, and (3) keeps the snapshot
    as it is when the new value is not JSON, is not an array, or is an
    array with an element the sanitization pass throws on (a null element,
    or an element whose quantity has no conversion to a number). *)
Theorem onStorage_adopts_or_keeps (e : StorageEvent) (state : CartState) :
  key e = Some STORAGE_KEY ->
  ((newValue e = None \/ newValue e = Some []) ->
   onStorage e state = Normal {| items := [] |})
  /\ (forall text elems,
        newValue e = Some text ->
        JSON_parse text = Normal (VArr elems) ->
        existsb rejected elems = false ->
        onStorage e state = Normal {| items := map sanitized_line elems |}
        /\ (Forall (fun p => plain_quantity (stored_quantity p)) elems ->
            quantities_valid {| items := map sanitized_line elems |}))
  /\ (forall text,
        newValue e = Some text -> text <> [] ->
        (exists err, JSON_parse text = Throw err)
        \/ (exists v, JSON_parse text = Normal v /\ isArray v = false)
        \/ (exists elems, JSON_parse text = Normal (VArr elems)
                          /\ existsb rejected elems = true) ->
        onStorage e state = Normal state).
Proof.
  intros Hkey. rewrite (onStorage_cases e state Hkey). split; [|split].
  - intros [-> | ->]; reflexivity.
  - intros text elems Htext Hparse Hrej. split.
    + rewrite Htext. destruct text as [|c text]; [discriminate Hparse|].
      rewrite Hparse, Hrej. reflexivity.
    + apply parsed_quantities_valid.
  - intros text Htext Hne Hbad. rewrite Htext.
    destruct text as [|c text]; [contradiction|].
    destruct Hbad as [[err ->] | [(v & -> & Hv) | (elems & -> & Hrej)]].
    + reflexivity.
    + destruct v; try discriminate; reflexivity.
    + rewrite Hrej. reflexivity.
Qed.

Lemma onStorage_adopts_or_keeps_witness :
  let e := {| key := Some STORAGE_KEY;
              newValue := Some (json_text "[{'id':'b','price':20,'quantity':2.7}]") |} in
  onStorage e {| items := [line "a" 100 2] |} = Normal {| items := [line "b" 20 2] |}.
Proof.
  intros e.
  destruct (onStorage_adopts_or_keeps e {| items := [line "a" 100 2] |} eq_refl)
    as (_ & Hadopt & _).
  destruct (Hadopt (json_text "[{'id':'b','price':20,'quantity':2.7}]")
              [VObj (<[js "quantity" := VNum (Number.round (27 # 10))]>
                       (props (line "b" 20 0)))]
              eq_refl) as [-> _]; vm_compute; reflexivity.
Defined.

(** C4 (as stated) fails: when the externally written value is not an
    array, or is not JSON at all, the snapshot is kept, not emptied. *)
Lemma onStorage_keeps_snapshot_on_bad_payload :
  let state := {| items := [line "a" 100 2] |} in
  let not_array := {| key := Some STORAGE_KEY; newValue := Some (json_text "{}") |} in
  let not_json := {| key := Some STORAGE_KEY; newValue := Some (js "not-json") |} in
  JSON_parse (json_text "{}") = Normal (VObj ∅)
  /\ JSON_parse (js "not-json") = Throw SyntaxError
  /\ onStorage not_array state = Normal state
  /\ onStorage not_json state = Normal state
  /\ state <> {| items := [] |}.
Proof.
  repeat split; try (vm_compute; reflexivity). discriminate.
Qed.

(** A stored quantity whose literal overflows is +Infinity, and the pass
    keeps it. *)
Example onStorage_overflowing_quantity :
  onStorage {| key := Some STORAGE_KEY;
               newValue := Some (json_text "[{'id':'b','quantity':1e400}]") |}
            initialState
  = Normal {| items := [{| quantity := Number.PInf;
                           props := {[ js "id" := VStr (js "b") ]} |}] |}.
Proof. vm_compute. reflexivity. Qed.

(** An array of values that are not lines is hydrated element by element:
    a number becomes a line with quantity 1 and no other property. *)
Example hydrate_array_of_other_values :
  hydrate true (Normal (Some (js "[5]"))) initialState
  = Normal {| items := [{| quantity := Number.one; props := ∅ |}] |}.
Proof. vm_compute. reflexivity. Qed.

(** A stored quantity that cannot be converted to a Number makes the pass
    throw: hydration then leaves the empty snapshot. *)
Example hydrate_unconvertible_quantity :
  hydrate true
    (Normal (Some (json_text "[{'id':'a','quantity':{'toString':1}}]")))
    {| items := [line "b" 20 1] |}
  = Normal {| items := [] |}.
Proof. vm_compute. reflexivity. Qed.

(** ** Uniqueness of ids *)

(** Hydration leaves the empty snapshot, or the lines of the stored
    array. *)
Lemma hydrate_results (getItem : completion (option jstring)) (state : CartState) :
  hydrate true getItem state = Normal {| items := [] |}
  \/ exists text elems,
       getItem = Normal (Some text)
       /\ JSON_parse text = Normal (VArr elems)
       /\ hydrate true getItem state = Normal {| items := map sanitized_line elems |}.
Proof.
  rewrite hydrate_cases.
  destruct getItem as [[[|c text]|]|err]; auto.
  destruct (JSON_parse (c :: text)) as [v|err] eqn:Hparse; auto.
  destruct v; auto.
  destruct (existsb rejected elems); auto.
  right. exists (c :: text), elems. auto.
Qed.

(** The storage listener keeps the snapshot, empties it, or replaces it
    with the lines of the array written under the cart's key. *)
Lemma onStorage_results (e : StorageEvent) (state : CartState) :
  onStorage e state = Normal state
  \/ onStorage e state = Normal {| items := [] |}
  \/ exists text elems,
       key e = Some STORAGE_KEY
       /\ newValue e = Some text
       /\ JSON_parse text = Normal (VArr elems)
       /\ onStorage e state = Normal {| items := map sanitized_line elems |}.
Proof.
  destruct (decide (key e = Some STORAGE_KEY)) as [Hkey|Hkey].
  - rewrite (onStorage_cases e state Hkey).
    destruct (newValue e) as [[|c text]|]; auto.
    destruct (JSON_parse (c :: text)) as [v|err] eqn:Hparse; auto.
    destruct v; auto.
    destruct (existsb rejected elems); auto.
    right. right. exists (c :: text), elems. auto.
  - left. apply onStorage_other_key, Hkey.
Qed.

Lemma ids_of_sanitized (elems : list value) :
  map id_of (map sanitized_line elems) = map element_id elems.
Proof. rewrite map_map. apply map_ext, id_of_sanitized_line. Qed.

(** Changing quantities changes no id. *)
Lemma ids_of_requantified (g : CartItem -> CartItem) (l : list CartItem) :
  (forall i, props (g i) = props i) ->
  map id_of (map g l) = map id_of l.
Proof.
  intros Hg. rewrite map_map. apply map_ext. intros i.
  unfold id_of. rewrite Hg. reflexivity.
Qed.

Lemma NoDup_map_filter {A B} (f : A -> B) (p : A -> bool) (l : list A) :
  NoDup (map f l) -> NoDup (map f (List.filter p l)).
Proof.
  induction l as [|a l IH]; simpl; intros H; [exact H|].
  apply NoDup_cons in H as [Ha Hl].
  destruct (p a); simpl; [|auto].
  apply NoDup_cons. split; [|auto].
  intros Hin. apply Ha.
  apply list_elem_of_fmap in Hin as (x & -> & Hx).
  apply list_elem_of_fmap. exists x. split; [reflexivity|].
  apply list_elem_of_In, filter_In in Hx as [Hx _]. apply list_elem_of_In, Hx.
Qed.

Lemma strict_equals_string_refl (id : jstring) :
  strict_equals (VStr id) (VStr id) = true.
Proof. simpl. apply bool_decide_eq_true. reflexivity. Qed.

Lemma addToCart_unique_ids (state : CartState) (item : CartItem) (id : jstring) :
  props item !! js "id" = Some (VStr id) ->
  unique_ids state -> unique_ids (addToCart state item).
Proof.
  intros Hid Huniq. unfold unique_ids, addToCart, reducer.
  destruct (List.find _ (items state)) as [existing|] eqn:Hfind; cbn [items].
  - rewrite ids_of_requantified by same_props. exact Huniq.
  - rewrite map_app. cbn [map].
    assert (Hitem : id_of (with_quantity item (safe_number (quantity item))) = VStr id).
    { unfold id_of, get. simpl. rewrite Hid. reflexivity. }
    rewrite Hitem.
    apply NoDup_app. split; [exact Huniq|]. split; [|apply NoDup_singleton].
    intros v Hv Hin. apply list_elem_of_singleton in Hin. subst v.
    apply list_elem_of_fmap in Hv as (i & Hi & Hin).
    pose proof (proj1 (find_none_all _ _) Hfind i Hin) as Hne. cbv beta in Hne.
    rewrite Hitem, <- Hi, strict_equals_string_refl in Hne. discriminate.
Qed.

(** Each admissible operation completes normally and keeps ids unique. *)
Lemma perform_unique_ids (state : CartState) (op : operation) :
  unique_ids state -> admissible op ->
  exists state', perform state op = Normal state' /\ unique_ids state'.
Proof.
  intros Huniq Hop.
  destruct op as [it | id | | id q | id d | id d | getItem | e];
    cbn [perform admissible] in *.
  - destruct Hop as [id Hid]. eexists. split; [reflexivity|].
    apply (addToCart_unique_ids state it id Hid Huniq).
  - eexists. split; [reflexivity|]. apply NoDup_map_filter, Huniq.
  - eexists. split; [reflexivity|]. apply NoDup_nil_2.
  - eexists. split; [reflexivity|]. unfold unique_ids, updateQuantity, reducer.
    destruct (Number.ltb _ _); [exact Huniq|]. cbn [items].
    rewrite ids_of_requantified by same_props. exact Huniq.
  - eexists. split; [reflexivity|]. unfold unique_ids, increaseQty, reducer.
    cbn [items]. rewrite ids_of_requantified by same_props. exact Huniq.
  - eexists. split; [reflexivity|]. unfold unique_ids, decreaseQty, reducer.
    cbn [items]. rewrite ids_of_requantified by same_props. exact Huniq.
  - destruct (hydrate_results getItem state)
      as [-> | (text & elems & Hget & Hparse & ->)].
    + eexists. split; [reflexivity|]. apply NoDup_nil_2.
    + eexists. split; [reflexivity|]. unfold unique_ids. cbn [items].
      rewrite ids_of_sanitized. exact (Hop (Some text) Hget text elems eq_refl Hparse).
  - destruct (onStorage_results e state)
      as [-> | [-> | (text & elems & Hkey & Hnew & Hparse & ->)]].
    + eexists. split; [reflexivity|]. exact Huniq.
    + eexists. split; [reflexivity|]. apply NoDup_nil_2.
    + eexists. split; [reflexivity|]. unfold unique_ids. cbn [items].
      rewrite ids_of_sanitized. exact (Hop Hkey text elems Hnew Hparse).
Qed.

(** C3 (as amended): starting from a snapshot without repeated ids, every
    sequence of public operations completes normally and leaves a snapshot
    without repeated ids, provided each add is given an item with a string
    id and each text taken from storage (at hydration or on a change
    notification) denotes an array whose elements have distinct ids. *)
Theorem run_unique_ids (ops : list operation) (state : CartState) :
  unique_ids state ->
  Forall admissible ops ->
  exists state', run state ops = Normal state' /\ unique_ids state'.
Proof.
  revert state. induction ops as [|op ops IH]; intros state Huniq Hops; simpl.
  - eauto.
  - apply Forall_cons in Hops as [Hop Hops].
    destruct (perform_unique_ids state op Huniq Hop) as (state' & -> & Huniq').
    simpl. apply IH; assumption.
Qed.

Lemma run_unique_ids_witness :
  exists state',
    run initialState
      [Add (line "a" 100 2);
       Hydrate (Normal (Some (json_text "[{'id':'b','quantity':1}]")));
       Add (line "b" 20 1);
       Add (line "a" 100 1);
       Remove (js "a")]
    = Normal state'
    /\ unique_ids state'.
Proof.
  apply run_unique_ids.
  - apply NoDup_nil_2.
  - repeat constructor; try (eexists; reflexivity).
    intros text Htext t elems -> Hparse.
    injection Htext as <-. vm_compute in Hparse. injection Hparse as <-.
    vm_compute. repeat constructor. intros Hin. inversion Hin.
Defined.

(** C3 (as stated) fails: hydration takes the stored lines as they are,
    repeated ids included. *)
Lemma hydrate_keeps_repeated_ids :
  let text :=
    json_text "[{'id':'a','price':100,'quantity':1},{'id':'a','price':100,'quantity':2}]" in
  let state := {| items := [line "a" 100 1; line "a" 100 2] |} in
  run initialState [Hydrate (Normal (Some text))] = Normal state
  /\ map id_of (items state) = [VStr (js "a"); VStr (js "a")]
  /\ ~ unique_ids state.
Proof.
  repeat split; try (vm_compute; reflexivity).
  unfold unique_ids. intros H. apply NoDup_cons in H as [H _].
  apply H. apply list_elem_of_here.
Qed.

(** ** Round trip through storage *)






(** ** Quantities *)

(** No public operation throws to its caller. *)
Lemma perform_completes (state : CartState) (op : operation) :
  exists state', perform state op = Normal state'.
Proof.
  destruct op as [it | id | | id q | id d | id d | getItem | e];
    cbn [perform]; eauto.
  - apply hydrate_never_throws.
  - destruct (onStorage_results e state)
      as [-> | [-> | (text & elems & _ & _ & _ & ->)]]; eauto.
Qed.

(** A decrease that would go below 1 stops at 1. *)
Example decreaseQty_clamps :
  items (decreaseQty {| items := [line "a" 100 2] |} (js "a") (Some (Number.of_Z 10)))
  = [line "a" 100 1].
Proof. reflexivity. Qed.

Lemma positive_integer_not_NaN : ~ positive_integer Number.NaN.
Proof. intros (n & _ & H). discriminate H. Qed.

(** C2 fails where a quantity is not a number: [updateQuantity] given NaN
    stores NaN as the quantity of the line ([Math.max(1, Math.trunc(NaN))]
    is NaN, and [NaN < 1] is false), and hydration from a stored quantity
    that is a string with no number in it stores NaN as well. The
    invariant asks for an integer that is at least 1. *)
Lemma non_numeric_quantity_breaks_invariant :
  let state := {| items := [line "a" 100 2] |} in
  let broken := {| items := [with_quantity (line "a" 100 2) Number.NaN] |} in
  quantities_valid state
  /\ perform state (SetQuantity (js "a") Number.NaN) = Normal broken
  /\ perform initialState
       (Hydrate (Normal (Some
          (json_text "[{'id':'a','price':100,'quantity':'abc'}]"))))
     = Normal broken
  /\ ~ quantities_valid broken.
Proof.
  repeat split.
  - repeat constructor. exists 2%Z. split; [lia | reflexivity].
  - intros H. apply Forall_cons in H as [H _]. exact (positive_integer_not_NaN H).
Qed.

(** The same gap on the other paths: NaN as the delta of an increase or a
    decrease, +Infinity as the quantity of an added item, and a stored
    quantity that is an object. *)
Lemma other_quantities_that_are_not_integers :
  let state := {| items := [line "a" 100 2] |} in
  map quantity (items (increaseQty state (js "a") (Some Number.NaN))) = [Number.NaN]
  /\ map quantity (items (decreaseQty state (js "a") (Some Number.NaN))) = [Number.NaN]
  /\ map quantity
       (items (addToCart initialState (with_quantity (line "a" 100 1) Number.PInf)))
     = [Number.PInf]
  /\ hydrate true (Normal (Some (json_text "[{'id':'a','price':100,'quantity':{}}]")))
       initialState
     = Normal {| items := [with_quantity (line "a" 100 1) Number.NaN] |}.
Proof.
  repeat split; vm_compute; reflexivity.
Qed.

End CartFacts.

(** * More facts about numbers *)

Module MoreNumberFacts.
Import Number.

Lemma ltb_one_false (x : Q) : ltb (Fin x) one = false <-> (1 <= x)%Q.
Proof.
  unfold ltb, one, of_Z. rewrite negb_false_iff, Qle_bool_iff. reflexivity.
Qed.

(** The larger of 1 and anything is not below 1. *)
Lemma Math_max_one_not_below (a : t) : ltb (Math_max one a) one = false.
Proof.
  destruct a as [| | |x]; try reflexivity.
  unfold Math_max, one, of_Z. cbv iota.
  destruct (ltb (Fin (inject_Z 1)) (Fin x)) eqn:E; [|reflexivity].
  apply ltb_one_false. unfold ltb in E. apply negb_true_iff in E.
  apply Qlt_le_weak, Qnot_le_lt. intros H. apply Qle_bool_iff in H.
  change (Qle_bool x (inject_Z 1) = true) in H. congruence.
Qed.

(** The sum of two numbers that are not below 1 is not below 1. *)
Lemma add_not_below (a b : t) :
  ltb a one = false -> ltb b one = false -> ltb (add a b) one = false.
Proof.
  destruct a as [| | |x], b as [| | |y]; simpl; try reflexivity; try discriminate.
  intros Hx Hy. apply ltb_one_false in Hx, Hy.
  apply NumberFacts.round_not_below_one.
  apply Qle_trans with (1 + 0)%Q; [discriminate|].
  apply Qplus_le_compat; [exact Hx|]. apply Qle_trans with 1%Q; [discriminate|exact Hy].
Qed.

(** A number below 2 is clamped to 1. *)
Lemma clamp_below_two (d : t) :
  ltb d (of_Z 2) = true -> Math_max one (Math_trunc d) = one.
Proof.
  destruct d as [| | |x]; simpl; try discriminate; try reflexivity.
  intros H. change (Math_max one (Math_trunc (Fin x)) = one).
  rewrite NumberFacts.clamp_finite. unfold one. f_equal.
  apply negb_true_iff in H.
  assert (Hlt : (Qnum x < 2 * Zpos (Qden x))%Z).
  { destruct (Z.lt_ge_cases (Qnum x) (2 * Zpos (Qden x))) as [|Hge]; [assumption|].
    exfalso. apply not_true_iff_false in H. apply H.
    apply Qle_bool_iff. unfold Qle. simpl. lia. }
  assert ((Qnum x ÷ Zpos (Qden x) <= 1)%Z); [|lia].
  destruct (Z.le_gt_cases 0 (Qnum x)).
  - apply Z.lt_succ_r. apply Z.quot_lt_upper_bound; lia.
  - assert ((Qnum x ÷ Zpos (Qden x) <= 0)%Z); [|lia].
    apply Z.quot_le_upper_bound; lia.
Qed.

(** Truncating and taking the larger of the result and 1 a second time
    changes nothing, for NaN and the infinities as well. *)
Lemma clamp_idempotent (a : t) :
  Math_max one (Math_trunc (Math_max one (Math_trunc a)))
  = Math_max one (Math_trunc a).
Proof.
  destruct a as [| | |x]; try reflexivity.
  rewrite NumberFacts.clamp_finite, NumberFacts.Math_trunc_of_Z.
  unfold one. rewrite NumberFacts.Math_max_of_Z. f_equal. lia.
Qed.

End MoreNumberFacts.

(** * More facts about the cart store *)

Module CartMoreFacts.
Import CartContext CartContextMore CartFacts.

(** ** remove *)

Lemma filter_requantified_away (id : jstring) (l : list CartItem) :
  (forall i, i ∈ l -> has_id id i = false) ->
  List.filter (fun i => negb (has_id id i)) l = l.
Proof.
  induction l as [|a l IH]; intros H; simpl; [reflexivity|].
  rewrite (H a) by apply list_elem_of_here. simpl. f_equal.
  apply IH. intros i Hi. apply H. by apply list_elem_of_further.
Qed.

(** Removing an id leaves no line with that id, keeps every other line,
    keeps the order of the lines, and returns the same snapshot when no
    line has the id. *)
Theorem removeFromCart_removes (state : CartState) (id : jstring) :
  (forall i, i ∈ items (removeFromCart state id) -> has_id id i = false)
  /\ (forall i, i ∈ items state -> has_id id i = false ->
                i ∈ items (removeFromCart state id))
  /\ sublist (items (removeFromCart state id)) (items state)
  /\ ((forall i, i ∈ items state -> has_id id i = false) ->
      removeFromCart state id = state).
Proof.
  unfold removeFromCart, reducer. cbn [items]. repeat split.
  - intros i Hi. apply list_elem_of_In, filter_In in Hi as [_ Hi].
    apply negb_true_iff, Hi.
  - intros i Hi Hid. apply list_elem_of_In, filter_In. split.
    + apply list_elem_of_In, Hi.
    + rewrite Hid. reflexivity.
  - induction (items state) as [|a l IH]; simpl; [constructor|].
    destruct (negb (has_id id a)); [apply sublist_skip | apply sublist_cons]; exact IH.
  - intros Habsent. apply state_eq, filter_requantified_away, Habsent.
Qed.

Lemma removeFromCart_removes_witness :
  items (removeFromCart {| items := [line "a" 100 2; line "b" 20 1; line "a" 100 3] |}
           (js "a"))
  = [line "b" 20 1]
  /\ removeFromCart {| items := [line "b" 20 1] |} (js "a") = {| items := [line "b" 20 1] |}.
Proof.
  split; [reflexivity|].
  apply (removeFromCart_removes {| items := [line "b" 20 1] |} (js "a")).
  intros i Hi. apply list_elem_of_singleton in Hi. subst i. reflexivity.
Defined.

(** Adding an item whose id the cart does not hold and then removing that
    id gives the snapshot back. *)
Theorem add_then_remove (state : CartState) (item : CartItem) (id : jstring) :
  props item !! js "id" = Some (VStr id) ->
  (forall i, i ∈ items state -> has_id id i = false) ->
  removeFromCart (addToCart state item) id = state.
Proof.
  intros Hid Habsent. unfold removeFromCart, reducer. apply state_eq.
  rewrite (addToCart_new_id state item id Hid Habsent).
  rewrite List.filter_app, (filter_requantified_away id _ Habsent). simpl.
  replace (has_id id (with_quantity item (safe_number (quantity item)))) with true.
  - simpl. apply app_nil_r.
  - unfold has_id, id_of, get. simpl. rewrite Hid. simpl.
    symmetry. apply bool_decide_eq_true. reflexivity.
Qed.

Lemma add_then_remove_witness :
  removeFromCart (addToCart {| items := [line "b" 20 1] |} (line "a" 100 2)) (js "a")
  = {| items := [line "b" 20 1] |}.
Proof.
  apply add_then_remove.
  - reflexivity.
  - intros i Hi. apply list_elem_of_singleton in Hi. subst i. reflexivity.
Defined.

Lemma total_of_appended (l : list CartItem) (x : CartItem) (z : number) :
  reduce_completion
    (fun sum it =>
       price ← ToNumber (price_of it);
       Normal (Number.add sum (Number.mul price (quantity it))))
    (l ++ [x]) z
  = (total ← reduce_completion
               (fun sum it =>
                  price ← ToNumber (price_of it);
                  Normal (Number.add sum (Number.mul price (quantity it))))
               l z;
     price ← ToNumber (price_of x);
     Normal (Number.add total (Number.mul price (quantity x)))).
Proof.
  revert z. induction l as [|a l IH]; intros z; simpl.
  - destruct (ToNumber (price_of x)); reflexivity.
  - destruct (ToNumber (price_of a)) as [p|err]; [|reflexivity].
    simpl. apply IH.
Qed.

(** An add of an id the cart does not hold appends one line at the end:
    the lines before it are as they were, and the new line has the item's
    properties and its sanitized quantity. The total grows by the price of
    the item times that quantity. *)
Theorem addToCart_appends (state : CartState) (item : CartItem) (id : jstring) :
  props item !! js "id" = Some (VStr id) ->
  (forall i, i ∈ items state -> has_id id i = false) ->
  items (addToCart state item)
  = items state ++ [with_quantity item (sanitized (quantity item))]
  /\ getCartTotal (addToCart state item)
     = (total ← getCartTotal state;
        price ← ToNumber (price_of item);
        Normal (Number.add total (Number.mul price (sanitized (quantity item))))).
Proof.
  intros Hid Habsent.
  pose proof (addToCart_new_id state item id Hid Habsent) as Hitems.
  rewrite safe_number_sanitized in Hitems. split; [exact Hitems|].
  unfold getCartTotal. rewrite Hitems.
  exact (total_of_appended (items state)
           (with_quantity item (sanitized (quantity item))) Number.zero).
Qed.

Lemma addToCart_appends_witness :
  items (addToCart {| items := [line "b" 20 1] |} (line "a" 100 0))
  = [line "b" 20 1; line "a" 100 1]
  /\ getCartTotal (addToCart {| items := [line "b" 20 1] |} (line "a" 100 0))
     = Normal (Number.of_Z 120).
Proof.
  destruct (addToCart_appends {| items := [line "b" 20 1] |} (line "a" 100 0) (js "a"))
    as [Hitems Htotal].
  - reflexivity.
  - intros i Hi. apply list_elem_of_singleton in Hi. subst i. reflexivity.
  - split; [rewrite Hitems | rewrite Htotal]; reflexivity.
Defined.

(** ** setQuantity, increaseQuantity, decreaseQuantity *)

Lemma requantify_twice (id : jstring) (q1 q2 : number) (l : list CartItem) :
  map (fun i => if has_id id i then with_quantity i q2 else i)
      (map (fun i => if has_id id i then with_quantity i q1 else i) l)
  = map (fun i => if has_id id i then with_quantity i q2 else i) l.
Proof.
  rewrite map_map. apply map_ext. intros i.
  destruct (has_id id i) eqn:Hi; [|rewrite Hi; reflexivity].
  change (has_id id (with_quantity i q1)) with (has_id id i). rewrite Hi. reflexivity.
Qed.

Lemma updateQuantity_sets (state : CartState) (id : jstring) (q : number) :
  updateQuantity state id q
  = {| items := map (fun i => if has_id id i
                              then with_quantity i
                                     (Number.Math_max Number.one (Number.Math_trunc q))
                              else i)
                    (items state) |}.
Proof.
  unfold updateQuantity, reducer.
  rewrite MoreNumberFacts.Math_max_one_not_below. reflexivity.
Qed.

(** Of two calls of [updateQuantity] on one id, the last one decides: the
    result is what the second call alone gives, whatever the numbers. In
    particular a repeated call changes nothing more. *)
Theorem updateQuantity_last_wins (state : CartState) (id : jstring) (q1 q2 : number) :
  updateQuantity (updateQuantity state id q1) id q2 = updateQuantity state id q2.
Proof.
  rewrite !updateQuantity_sets. cbn [items]. f_equal. apply requantify_twice.
Qed.

(** A delta below 2, zero and negative deltas included, moves the quantity
    by one: the call does what the call without a delta does. *)
Theorem small_delta_is_one (state : CartState) (id : jstring) (d : number) :
  Number.ltb d (Number.of_Z 2) = true ->
  increaseQty state id (Some d) = increaseQty state id None
  /\ decreaseQty state id (Some d) = decreaseQty state id None.
Proof.
  intros Hd. unfold increaseQty, decreaseQty, reducer. cbv beta iota zeta delta [default from_option Datatypes.id].
  rewrite (MoreNumberFacts.clamp_below_two d Hd).
  change (Number.Math_max Number.one (Number.Math_trunc Number.one)) with Number.one.
  split; reflexivity.
Qed.

Lemma small_delta_is_one_witness :
  items (increaseQty {| items := [line "a" 100 2] |} (js "a") (Some (Number.of_Z (-5))))
  = [line "a" 100 3]
  /\ items (decreaseQty {| items := [line "a" 100 2] |} (js "a") (Some Number.zero))
     = [line "a" 100 1].
Proof.
  destruct (small_delta_is_one {| items := [line "a" 100 2] |} (js "a")
              (Number.of_Z (-5)) eq_refl) as [-> _].
  destruct (small_delta_is_one {| items := [line "a" 100 2] |} (js "a")
              Number.zero eq_refl) as [_ ->].
  split; reflexivity.
Defined.

Lemma increase_then_decrease_quantity (n m : Z) :
  (1 <= n)%Z -> (1 <= m)%Z -> (n + m <= 2 ^ 53)%Z ->
  Number.Math_max Number.one
    (Number.sub (Number.add (Number.of_Z n) (Number.of_Z m)) (Number.of_Z m))
  = Number.of_Z n.
Proof.
  intros Hn Hm Hbound.
  rewrite NumberFacts.add_of_Z by lia.
  rewrite NumberFacts.sub_of_Z by lia.
  unfold Number.one. rewrite NumberFacts.Math_max_of_Z. f_equal. lia.
Qed.

(** With quantities that are integers of at least 1, an increase followed
    by a decrease by the same delta gives the snapshot back, as long as the
    increased quantities stay within 2^53: the delta counts as the integer
    [m] it is truncated and raised to. *)
Theorem increase_then_decrease (state : CartState) (id : jstring) (d : option number)
    (m : Z) :
  Number.Math_max Number.one (Number.Math_trunc (default Number.one d)) = Number.of_Z m ->
  Forall (fun i => exists n, (1 <= n)%Z /\ (n + m <= 2 ^ 53)%Z
                             /\ quantity i = Number.of_Z n)
         (items state) ->
  decreaseQty (increaseQty state id d) id d = state.
Proof.
  intros Hd Hvalid. set (delta := default Number.one d) in *.
  assert (Hm : (1 <= m)%Z).
  { pose proof (MoreNumberFacts.Math_max_one_not_below (Number.Math_trunc delta)) as H.
    rewrite Hd in H. change Number.one with (Number.of_Z 1) in H.
    rewrite NumberFacts.ltb_of_Z in H. apply Z.ltb_ge in H. exact H. }
  unfold decreaseQty, increaseQty, reducer. cbv zeta.
  change (default Number.one (Some delta)) with delta. cbn [items].
  apply state_eq. rewrite map_map.
  rewrite <- (map_id (items state)) at 2. apply Forall_fmap_ext_1.
  eapply Forall_impl; [exact Hvalid|]. intros i (n & Hn & Hbound & Hi). cbv beta.
  destruct (has_id id i) eqn:Hid; [|rewrite Hid; reflexivity].
  change (has_id id (with_quantity i ?q)) with (has_id id i). rewrite Hid.
  cbn [with_quantity quantity props].
  change (default Number.one (Some (default Number.one d))) with delta.
  rewrite Hd, Hi, (increase_then_decrease_quantity n m Hn Hm Hbound).
  rewrite <- Hi. destruct i; reflexivity.
Qed.

Lemma increase_then_decrease_witness :
  decreaseQty
    (increaseQty {| items := [line "a" 100 1; line "b" 20 4] |} (js "a")
       (Some (Number.Fin (7 # 2))))
    (js "a") (Some (Number.Fin (7 # 2)))
  = {| items := [line "a" 100 1; line "b" 20 4] |}.
Proof.
  apply (increase_then_decrease _ _ _ 3); [reflexivity|].
  repeat constructor; eexists; (split; [|split; [|reflexivity]]);
    [lia | vm_compute; discriminate | lia | vm_compute; discriminate].
Defined.

(** The bound is needed: a quantity of 3 increased and then decreased by
    10^17 comes back as 1. *)
Example increase_then_decrease_loses_quantity :
  let d := Some (Number.of_Z (10 ^ 17)) in
  items (decreaseQty (increaseQty {| items := [line "a" 100 3] |} (js "a") d) (js "a") d)
  = [line "a" 100 1].
Proof. vm_compute. reflexivity. Qed.

(** ** Quantities *)

Lemma clamped_quantity_not_below (q : value) :
  Number.ltb (clamped_quantity q) Number.one = false.
Proof. apply MoreNumberFacts.Math_max_one_not_below. Qed.

Lemma requantified_not_below (p : CartItem -> bool) (f : CartItem -> number)
    (l : list CartItem) :
  Forall (fun i => Number.ltb (quantity i) Number.one = false) l ->
  (forall i, Number.ltb (quantity i) Number.one = false ->
             Number.ltb (f i) Number.one = false) ->
  Forall (fun i => Number.ltb (quantity i) Number.one = false)
         (map (fun i => if p i then with_quantity i (f i) else i) l).
Proof.
  intros Hl Hf. apply Forall_fmap. eapply Forall_impl; [exact Hl|].
  intros i Hi. simpl. destruct (p i); simpl; auto.
Qed.

Lemma perform_never_below_one (state : CartState) (op : operation) :
  never_below_one state ->
  exists state', perform state op = Normal state' /\ never_below_one state'.
Proof.
  intros Hstate. unfold never_below_one in *.
  destruct op as [it | id | | id q | id d | id d | getItem | e]; cbn [perform].
  - eexists. split; [reflexivity|]. unfold addToCart, reducer.
    assert (Hsafe : Number.ltb (safe_number (quantity it)) Number.one = false)
      by apply MoreNumberFacts.Math_max_one_not_below.
    destruct (List.find _ (items state)); cbn [items quantity with_quantity].
    + apply (requantified_not_below _ (fun i => Number.add (quantity i) _) _ Hstate).
      intros i Hi. apply MoreNumberFacts.add_not_below; assumption.
    + apply Forall_app. split; [exact Hstate|]. constructor; [exact Hsafe|constructor].
  - eexists. split; [reflexivity|]. cbn [removeFromCart reducer items].
    rewrite Forall_forall in *. intros i Hi. apply Hstate.
    apply list_elem_of_In, filter_In in Hi as [Hi _]. apply list_elem_of_In, Hi.
  - eexists. split; [reflexivity|]. constructor.
  - eexists. split; [reflexivity|]. rewrite updateQuantity_sets. cbn [items].
    apply (requantified_not_below _ (fun _ => _) _ Hstate). intros _ _.
    apply MoreNumberFacts.Math_max_one_not_below.
  - eexists. split; [reflexivity|]. unfold increaseQty, reducer. cbv beta iota zeta delta [default from_option Datatypes.id]. cbn [items].
    apply (requantified_not_below _ (fun i => Number.add (quantity i) _) _ Hstate).
    intros i Hi. apply MoreNumberFacts.add_not_below; [exact Hi|].
    apply MoreNumberFacts.Math_max_one_not_below.
  - eexists. split; [reflexivity|]. unfold decreaseQty, reducer. cbv beta iota zeta delta [default from_option Datatypes.id]. cbn [items].
    apply (requantified_not_below _
             (fun i => Number.Math_max _ (Number.sub (quantity i) _)) _ Hstate).
    intros i Hi. apply MoreNumberFacts.Math_max_one_not_below.
  - destruct (hydrate_results getItem state)
      as [-> | (text & elems & _ & _ & ->)].
    + eexists. split; [reflexivity|]. constructor.
    + eexists. split; [reflexivity|]. cbn [items]. apply Forall_fmap.
      apply Forall_forall. intros p _. apply clamped_quantity_not_below.
  - destruct (onStorage_results e state)
      as [-> | [-> | (text & elems & _ & _ & _ & ->)]].
    + eexists. split; [reflexivity|]. exact Hstate.
    + eexists. split; [reflexivity|]. constructor.
    + eexists. split; [reflexivity|]. cbn [items]. apply Forall_fmap.
      apply Forall_forall. intros p _. apply clamped_quantity_not_below.
Qed.

(** Whatever the arguments and whatever the storage holds, no sequence of
    public operations throws, and none stores a quantity below 1: from a
    snapshot where no quantity is below 1 it leads to such a snapshot. *)
Theorem run_never_below_one (ops : list operation) (state : CartState) :
  never_below_one state ->
  exists state', run state ops = Normal state' /\ never_below_one state'.
Proof.
  revert state. induction ops as [|op ops IH]; intros state Hstate; simpl.
  - eauto.
  - destruct (perform_never_below_one state op Hstate) as (state' & -> & Hstate').
    simpl. apply IH, Hstate'.
Qed.

Lemma run_never_below_one_witness :
  exists state',
    run initialState
      [Add (with_quantity (line "a" 100 0) (Number.Fin (-7 # 2)));
       SetQuantity (js "a") Number.NaN;
       DecreaseQuantity (js "a") (Some Number.PInf);
       Sync {| key := Some STORAGE_KEY;
               newValue := Some (json_text "[{'id':'b','quantity':-3}]") |}]
    = Normal state'
    /\ never_below_one state'.
Proof. apply run_never_below_one. constructor. Defined.

(** *** Integers, or +Infinity *)

Lemma whole_one : whole_or_infinite Number.one.
Proof. right. apply positive_integer_one. Qed.



Lemma add_whole_or_infinite (q r : number) :
  whole_or_infinite q -> whole_or_infinite r -> whole_or_infinite (Number.add q r).
Proof.
  intros [-> | (n & Hn & ->)] [-> | (m & Hm & ->)]; try (left; reflexivity).
  destruct (NumberFacts.add_whole n m) as [-> | (k & Hk & ->)];
    [lia | left; reflexivity | right; exists k; auto].
Qed.

Lemma decrease_whole (q d : number) :
  whole_or_infinite q -> Number.isFinite d = true ->
  whole_or_infinite
    (Number.Math_max Number.one
       (Number.sub q (Number.Math_max Number.one (Number.Math_trunc d)))).
Proof.
  intros Hq Hd. destruct d as [| | |x]; try discriminate.
  rewrite NumberFacts.clamp_finite.
  destruct Hq as [-> | (n & Hn & ->)]; [left; reflexivity|].
  destruct (NumberFacts.sub_whole n (Z.max 1 (Qnum x ÷ Z.pos (Qden x))))
    as [-> | [-> | (k & ->)]]; [left; reflexivity | apply whole_one |].
  right. unfold Number.one. rewrite NumberFacts.Math_max_of_Z.
  eexists. split; [|reflexivity]. lia.
Qed.

(** Truncating and raising to 1 changes no integer that is at least 1,
    and not +Infinity. *)
Lemma clamp_whole_unchanged (q : number) :
  whole_or_infinite q -> Number.Math_max Number.one (Number.Math_trunc q) = q.
Proof.
  intros [-> | (n & Hn & ->)]; [reflexivity|].
  rewrite NumberFacts.Math_trunc_of_Z. unfold Number.one.
  rewrite NumberFacts.Math_max_of_Z. f_equal. lia.
Qed.

Lemma requantified_whole (p : CartItem -> bool) (f : CartItem -> number)
    (l : list CartItem) :
  Forall (fun i => whole_or_infinite (quantity i)) l ->
  (forall i, whole_or_infinite (quantity i) -> whole_or_infinite (f i)) ->
  Forall (fun i => whole_or_infinite (quantity i))
         (map (fun i => if p i then with_quantity i (f i) else i) l).
Proof.
  intros Hl Hf. apply Forall_fmap. eapply Forall_impl; [exact Hl|].
  intros i Hi. simpl. destruct (p i); simpl; auto.
Qed.






(** ** itemCount *)

Lemma fold_quantities (l : list CartItem) (ns : list Z) (a : Z) :
  map quantity l = map Number.of_Z ns ->
  Forall (fun n => (1 <= n)%Z) ns ->
  (0 <= a)%Z -> (a + total_of ns <= 2 ^ 53)%Z ->
  fold_left (fun sum it => Number.add sum (quantity it)) l (Number.of_Z a)
  = Number.of_Z (a + total_of ns)
  /\ (Z.of_nat (length l) <= total_of ns)%Z.
Proof.
  revert ns a. induction l as [|i l IH]; intros [|n ns] a Hmap Hns Ha Hbound;
    try discriminate Hmap; cbn [fold_left map total_of fold_right length] in *.
  - rewrite Z.add_0_r. split; [reflexivity | lia].
  - fold (total_of ns) in *. injection Hmap as Hi Hmap.
    apply Forall_cons in Hns as [Hn Hns].
    pose proof (total_of_nonnegative ns) as Hnn. lapply Hnn; [clear Hnn; intros Hnn|].
    2: { eapply Forall_impl; [exact Hns|]. simpl. lia. }
    rewrite Hi, NumberFacts.add_of_Z by lia.
    destruct (IH ns (a + n)%Z Hmap Hns) as [-> Hlen]; [lia | lia |].
    split; [f_equal; lia | lia].
Qed.

(** When the quantities are integers of at least 1 whose sum is at most
    2^53, the item count is that sum, which is at least the number of
    lines. *)
Theorem getTotalItems_counts (state : CartState) (ns : list Z) :
  map quantity (items state) = map Number.of_Z ns ->
  Forall (fun n => (1 <= n)%Z) ns ->
  (total_of ns <= 2 ^ 53)%Z ->
  getTotalItems state = Number.of_Z (total_of ns)
  /\ (Z.of_nat (length (items state)) <= total_of ns)%Z.
Proof.
  intros Hmap Hns Hbound. unfold getTotalItems. change Number.zero with (Number.of_Z 0).
  destruct (fold_quantities (items state) ns 0 Hmap Hns) as [-> Hlen]; [lia | lia |].
  split; [reflexivity | exact Hlen].
Qed.

Lemma getTotalItems_counts_witness :
  getTotalItems {| items := [line "a" 100 2; line "b" 20 3] |} = Number.of_Z 5.
Proof.
  apply (getTotalItems_counts {| items := [line "a" 100 2; line "b" 20 3] |} [2; 3]%Z).
  - reflexivity.
  - repeat constructor; lia.
  - vm_compute. discriminate.
Defined.

(** The bound is needed: two quantities of 1e308 count as +Infinity. *)
Example getTotalItems_overflows :
  getTotalItems
    {| items := [with_quantity (line "a" 100 1) (Number.round (inject_Z (10 ^ 308)));
                 with_quantity (line "b" 20 1) (Number.round (inject_Z (10 ^ 308)))] |}
  = Number.PInf.
Proof. vm_compute. reflexivity. Qed.

(** ** Hydration and synchronisation side by side *)

(** Hydration and the storage listener sanitize a text the same way: given
    one text, both arrive at the same snapshot, unless the text is of no
    use (it is not JSON, does not denote an array, or denotes an array with
    an element the pass throws on): then hydration leaves the empty
    snapshot where the listener keeps the snapshot it had. *)
Theorem hydrate_and_onStorage (text : jstring) (state : CartState) :
  let e := {| key := Some STORAGE_KEY; newValue := Some text |} in
  hydrate true (Normal (Some text)) state = onStorage e state
  \/ (unusable (Normal (Some text))
      /\ hydrate true (Normal (Some text)) state = Normal {| items := [] |}
      /\ onStorage e state = Normal state).
Proof.
  intros e. rewrite hydrate_cases, (onStorage_cases e state eq_refl). cbn [newValue e].
  destruct text as [|c text]; [left; reflexivity|].
  destruct (JSON_parse (c :: text)) as [v|err] eqn:Hparse.
  - destruct v;
      try (right; split; [|split; reflexivity];
           right; right; exists (c :: text); split; [reflexivity|];
           right; left; eexists; split; [exact Hparse | reflexivity]).
    destruct (existsb rejected elems) eqn:Hrej; [|left; reflexivity].
    right. split; [|split; reflexivity].
    right. right. exists (c :: text). split; [reflexivity|].
    right. right. exists elems. split; [exact Hparse | exact Hrej].
  - right. split; [|split; reflexivity].
    right. right. exists (c :: text). split; [reflexivity|].
    left. exists err. exact Hparse.
Qed.

End CartMoreFacts.

(** * The debounced write *)

Module PersistFacts.
Import CartContext Persist.

Section Stringify.

Variable JSON_stringify : list CartItem -> jstring.

Lemma last_effect_snoc (events : list event) (e : event) :
  last_effect (events ++ [e])
  = match e with Effect items => Some items | _ => last_effect events end.
Proof. unfold last_effect. rewrite fold_left_app. reflexivity. Qed.

Lemma run_events_snoc (isBrowser : bool) (w : Window) (events : list event) (e : event) :
  run_events JSON_stringify isBrowser w (events ++ [e])
  = step JSON_stringify isBrowser (run_events JSON_stringify isBrowser w events) e.
Proof. unfold run_events. rewrite fold_left_app. reflexivity. Qed.

Lemma pending_latest_consistent (last : option (list CartItem)) (w : Window) :
  pending_latest last w -> consistent w.
Proof.
  unfold pending_latest, consistent. destruct (saveTimerRef w); [|auto].
  intros (items & _ & H). eauto.
Qed.

Lemma step_pending_latest (isBrowser : bool) (last : option (list CartItem))
    (w : Window) (e : event) :
  pending_latest last w ->
  pending_latest (match e with Effect items => if isBrowser then Some items else last
                             | _ => last end)
                 (step JSON_stringify isBrowser w e).
Proof.
  unfold pending_latest. intros Hw. destruct e as [items | | h throws]; simpl.
  - unfold persist_effect. destruct isBrowser; simpl; [|exact Hw].
    exists items. split; [reflexivity|].
    destruct (saveTimerRef w) as [h|]; simpl.
    + destruct Hw as (old & _ & ->). rewrite delete_singleton_eq.
      apply insert_empty.
    + rewrite Hw. apply insert_empty.
  - unfold persist_cleanup. destruct isBrowser; simpl; [|exact Hw].
    destruct (saveTimerRef w) as [h|] eqn:Href; simpl.
    + destruct Hw as (old & _ & ->). apply delete_singleton_eq.
    + rewrite Href. exact Hw.
  - unfold timeout_fires. destruct (timeouts w !! h) as [items|] eqn:Hh; [|exact Hw].
    simpl. destruct (saveTimerRef w) as [h'|].
    + destruct Hw as (old & _ & Hw). rewrite Hw in *.
      apply lookup_singleton_Some in Hh as [-> _]. apply delete_singleton_eq.
    + rewrite Hw in Hh. rewrite lookup_empty in Hh. discriminate.
Qed.

Lemma mounted_stays (text : option jstring) (events : list event) :
  run_events JSON_stringify false (mounted text) events = mounted text.
Proof.
  induction events as [|e events IH] using rev_ind; [reflexivity|].
  rewrite run_events_snoc, IH. destruct e as [items | | h throws]; reflexivity.
Qed.

Lemma run_events_pending_latest (text : option jstring) (events : list event) :
  pending_latest (last_effect events)
    (run_events JSON_stringify true (mounted text) events).
Proof.
  induction events as [|e events IH] using rev_ind; [reflexivity|].
  rewrite run_events_snoc, last_effect_snoc.
  apply (step_pending_latest true _ _ e) in IH. destruct e; exact IH.
Qed.

Lemma one_pending_write_holds (isBrowser : bool) (text : option jstring)
    (events : list event) :
  consistent (run_events JSON_stringify isBrowser (mounted text) events).
Proof.
  destruct isBrowser.
  - eapply pending_latest_consistent, run_events_pending_latest.
  - rewrite mounted_stays. reflexivity.
Qed.

(** At most one write is pending at any time: whatever the effect, its
    cleanup and the timeouts do and in whatever order, no timeout is set
    and the ref is null, or exactly one timeout is set and the ref holds
    its handle. *)
Theorem one_pending_write (isBrowser : bool) (text : option jstring)
    (events : list event) :
  consistent (run_events JSON_stringify isBrowser (mounted text) events)
  /\ size (timeouts (run_events JSON_stringify isBrowser (mounted text) events)) <= 1.
Proof.
  pose proof (one_pending_write_holds isBrowser text events) as H.
  split; [exact H|]. unfold consistent in H.
  destruct (saveTimerRef _) as [h|].
  - destruct H as (items & ->). rewrite map_size_singleton. lia.
  - rewrite H, map_size_empty. lia.
Qed.

(** The write that is pending is the write of the latest items: a timeout
    that is set closes over the items of the last run of the effect, and
    when it comes due it stores their text, or leaves the stored text as it
    is when the write throws; either way nothing is pending after it. *)
Theorem pending_write_is_latest (text : option jstring) (events : list event) :
  let w := run_events JSON_stringify true (mounted text) events in
  match saveTimerRef w with
  | None => timeouts w = ∅
  | Some h =>
      exists items,
        last_effect events = Some items
        /\ timeouts w = {[ h := items ]}
        /\ forall setItem_throws,
             timeout_fires JSON_stringify h setItem_throws w
             = {| saveTimerRef := None; timeouts := ∅;
                  next_handle := next_handle w;
                  stored := if setItem_throws then stored w
                            else Some (JSON_stringify items) |}
  end.
Proof.
  intros w. pose proof (run_events_pending_latest text events) as H.
  fold w in H. unfold pending_latest in H.
  destruct (saveTimerRef w) as [h|]; [|exact H].
  destruct H as (items & Hlast & Hw). exists items. repeat split; [exact Hlast|exact Hw|].
  intros throws. unfold timeout_fires. rewrite Hw, lookup_singleton_eq.
  rewrite delete_singleton_eq. reflexivity.
Qed.

Lemma timeout_fires_nothing_set (h : positive) (throws : bool) (w : Window) :
  timeouts w = ∅ -> timeout_fires JSON_stringify h throws w = w.
Proof. intros H. unfold timeout_fires. rewrite H, lookup_empty. reflexivity. Qed.

Lemma timeouts_fire_nothing_set (isBrowser : bool) (due : list (positive * bool))
    (w : Window) :
  timeouts w = ∅ ->
  fold_left (step JSON_stringify isBrowser)
            (map (fun t => Timeout (fst t) (snd t)) due) w
  = w.
Proof.
  intros H. induction due as [|[h throws] due IH]; [reflexivity|].
  cbn [map fold_left step fst snd]. rewrite (timeout_fires_nothing_set _ _ _ H).
  exact IH.
Qed.

(** After the cleanup nothing is written: whatever ran before it, no
    timeout that comes due afterwards changes the window, the stored text
    included. *)
Theorem nothing_after_cleanup (isBrowser : bool) (text : option jstring)
    (events : list event) (due : list (positive * bool)) :
  run_events JSON_stringify isBrowser (mounted text)
    (events ++ Cleanup :: map (fun t => Timeout (fst t) (snd t)) due)
  = run_events JSON_stringify isBrowser (mounted text) (events ++ [Cleanup]).
Proof.
  rewrite run_events_snoc. unfold run_events at 1. rewrite fold_left_app.
  fold (run_events JSON_stringify isBrowser (mounted text) events).
  pose proof (one_pending_write_holds isBrowser text events) as Hw.
  set (w := run_events JSON_stringify isBrowser (mounted text) events) in *.
  cbn [fold_left]. apply timeouts_fire_nothing_set.
  assert (Hoff : isBrowser = false -> timeouts w = ∅)
    by (intros ->; subst w; rewrite mounted_stays; reflexivity).
  clearbody w. unfold step, persist_cleanup, consistent in *.
  destruct isBrowser; simpl; [|auto].
  destruct (saveTimerRef w) as [h|]; [|exact Hw].
  destruct Hw as (items & Hw). simpl. rewrite Hw. apply delete_singleton_eq.
Qed.

Lemma persist_effect_sets (items : list CartItem) (w : Window) :
  consistent w ->
  persist_effect true items w
  = {| saveTimerRef := Some (next_handle w);
       timeouts := {[ next_handle w := items ]};
       next_handle := Pos.succ (next_handle w);
       stored := stored w |}.
Proof.
  unfold consistent, persist_effect. intros Hw. simpl.
  destruct (saveTimerRef w) as [h|]; simpl; unfold set_saveTimerRef; simpl; f_equal.
  - destruct Hw as (old & ->). rewrite delete_singleton_eq. apply insert_empty.
  - rewrite Hw. apply insert_empty.
Qed.

Lemma persist_cleanup_consistent (w : Window) :
  consistent w ->
  consistent (persist_cleanup true w) /\ stored (persist_cleanup true w) = stored w.
Proof.
  intros Hw. split.
  - unfold consistent in *. unfold persist_cleanup. simpl.
    destruct (saveTimerRef w) as [h|] eqn:Href; simpl.
    + destruct Hw as (old & ->). apply delete_singleton_eq.
    + rewrite Href. exact Hw.
  - unfold persist_cleanup. simpl. destruct (saveTimerRef w); reflexivity.
Qed.

(** Renders in quick succession coalesce into one write: after any number
    of renders with no timeout coming due in between, the stored text is
    still the one found at mount, one timeout is set, and when it comes due
    it stores the text of the items of the last render. *)
Theorem renders_coalesce (text : option jstring) (first : list CartItem)
    (rest : list (list CartItem)) :
  let w := run_events JSON_stringify true (mounted text) (renders first rest) in
  stored w = text
  /\ exists h,
       saveTimerRef w = Some h
       /\ timeouts w = {[ h := List.last rest first ]}
       /\ stored (timeout_fires JSON_stringify h false w)
          = Some (JSON_stringify (List.last rest first)).
Proof.
  cbv zeta. induction rest as [|items rest IH] using rev_ind.
  - simpl. split; [reflexivity|]. exists 1%positive.
    unfold timeout_fires. simpl. rewrite insert_empty, lookup_singleton_eq.
    repeat split; reflexivity.
  - replace (renders first (rest ++ [items]))
      with ((renders first rest ++ [Cleanup]) ++ [Effect items])
      by (unfold renders; rewrite flat_map_app, <- app_assoc; reflexivity).
    rewrite !run_events_snoc, last_last.
    set (w := run_events JSON_stringify true (mounted text) _) in *.
    destruct IH as (Hstored & h & Href & Hw & _).
    assert (Hc : consistent w) by (unfold consistent; rewrite Href; eauto).
    destruct (persist_cleanup_consistent w Hc) as (Hc' & Hs').
    cbn [step]. rewrite (persist_effect_sets items _ Hc'). cbn [stored saveTimerRef timeouts].
    split; [congruence|]. eexists. split; [reflexivity|]. split; [reflexivity|].
    unfold timeout_fires. cbn [timeouts]. rewrite lookup_singleton_eq. reflexivity.
Qed.

End Stringify.

End PersistFacts.

(** * The cart page *)

Module CartPageFacts.
Import CartContext CartContextMore CartPage CartFacts.

Lemma digit_is_not_space (c : N) : is_digit c = true -> is_StrWhiteSpaceChar c = false.
Proof.
  unfold is_digit, digit_value. destruct ((48 <=? c) && (c <=? 57))%N eqn:H; [|discriminate].
  intros _. apply andb_true_iff in H as [H1 H2].
  apply N.leb_le in H1, H2. unfold is_StrWhiteSpaceChar.
  apply orb_false_iff. split.
  - apply bool_decide_eq_false. intros Hin.
    repeat (apply elem_of_cons in Hin as [-> | Hin]; [lia|]). inversion Hin.
  - apply andb_false_iff. left. apply N.leb_gt. lia.
Qed.

Lemma take_digits_all (ds : jstring) :
  Forall (fun c => is_digit c = true) ds -> take_digits ds = (ds, []).
Proof.
  induction 1 as [|c ds Hc _ IH]; simpl; [reflexivity|]. rewrite Hc, IH. reflexivity.
Qed.

Lemma digits_value_from (ds : jstring) (a : N) :
  Forall (fun c => is_digit c = true) ds ->
  exists v,
    fold_left
      (fun acc c =>
         match acc, hex_digit_value c with
         | Some a, Some d => if (d <? 10)%N then Some (a * 10 + d)%N else None
         | _, _ => None
         end)
      ds (Some a)
    = Some v.
Proof.
  intros H. revert a. induction H as [|c ds Hc _ IH]; intros a; simpl; [eauto|].
  unfold is_digit, digit_value in Hc. unfold hex_digit_value.
  destruct ((48 <=? c) && (c <=? 57))%N eqn:Hr; [|discriminate].
  apply andb_true_iff in Hr as [H1 H2]. apply N.leb_le in H1, H2.
  replace (c - 48 <? 10)%N with true by (symmetry; apply N.ltb_lt; lia).
  apply IH.
Qed.

Lemma parseInt10_digits (c : N) (ds : jstring) :
  Forall (fun c => is_digit c = true) (c :: ds) ->
  exists v, digits_value 10 (c :: ds) = Some v
            /\ parseInt10 (c :: ds) = Number.round (inject_Z (Z.of_N v)).
Proof.
  intros H. destruct (digits_value_from (c :: ds) 0 H) as (v & Hv).
  change (digits_value 10 (c :: ds) = Some v) in Hv.
  exists v. split; [exact Hv|].
  pose proof (Forall_inv H) as Hc.
  unfold parseInt10. cbn [trim_start]. rewrite (digit_is_not_space c Hc).
  assert (Hsign : c <> 45%N /\ c <> 43%N) by (split; intros ->; discriminate).
  destruct Hsign as [Hm Hp].
  replace (match c :: ds with
           | 45%N :: r => (true, r)
           | 43%N :: r => (false, r)
           | r => (false, r)
           end) with (false, c :: ds).
  - rewrite (take_digits_all _ H). cbn [fst]. rewrite Hv. reflexivity.
  - destruct c as [|p]; [reflexivity|].
    do 6 (destruct p as [p|p|]; try reflexivity); congruence.
Qed.

(** [parseInt] gives NaN or the Number of an integer. *)
Lemma parseInt10_integer (s : jstring) :
  parseInt10 s = Number.NaN \/ exists z, parseInt10 s = Number.round (inject_Z z).
Proof.
  unfold parseInt10.
  destruct (match trim_start s with
            | 45%N :: r => (true, r)
            | 43%N :: r => (false, r)
            | r => (false, r)
            end) as [negative body].
  destruct (fst (take_digits body)) as [|d ds]; [left; reflexivity|].
  destruct (digits_value 10 (d :: ds)) as [v|]; [right; eauto | left; reflexivity].
Qed.

(** The Number of an integer is below 1, or is an integer that is at least
    1, or is +Infinity. *)
Lemma round_integer_cases (z : Z) :
  Number.ltb (Number.round (inject_Z z)) Number.one = true
  \/ whole_or_infinite (Number.round (inject_Z z)).
Proof.
  destruct (Z.lt_trichotomy z 0) as [Hneg | [-> | Hpos]].
  - left. destruct (NumberFacts.round_whole_opp z) as [-> | (m & Hm & ->)];
      [lia | reflexivity |].
    change Number.one with (Number.of_Z 1). rewrite NumberFacts.ltb_of_Z.
    apply Z.ltb_lt. lia.
  - left. reflexivity.
  - right. destruct (NumberFacts.round_whole z) as [-> | (m & Hm & ->)];
      [lia | left; reflexivity | right; exists m; auto].
Qed.

Lemma whole_not_below_one (n : number) :
  whole_or_infinite n -> Number.isNaN n || Number.ltb n Number.one = false.
Proof.
  intros [-> | (m & Hm & ->)]; [reflexivity|].
  change Number.one with (Number.of_Z 1). rewrite NumberFacts.ltb_of_Z.
  cbn [Number.isNaN Number.of_Z orb]. apply Z.ltb_ge. exact Hm.
Qed.

Lemma handleAdjustQty_enabled (state : CartState) (id : jstring) (qty : number) :
  handleAdjustQty true state id qty = updateQuantity state id qty.
Proof.
  unfold handleAdjustQty. cbv zeta. cbn [negb].
  unfold updateQuantity. rewrite MoreNumberFacts.clamp_idempotent. reflexivity.
Qed.

(** What [commit] does, by what [parseInt] reads. *)
Lemma commit_cases (val : option jstring) (local : jstring) :
  commit val local = SetLocalToValue
  \/ exists n, whole_or_infinite n
               /\ commit val local = OnChange n
               /\ parseInt10 (match default local val with
                              | [] => js "0"
                              | _ => default local val
                              end)
                  = n.
Proof.
  unfold commit. cbv zeta.
  destruct (parseInt10_integer
             (match default local val with [] => js "0" | _ => default local val end))
    as [-> | (z & ->)]; [left; reflexivity|].
  destruct (round_integer_cases z) as [Hlow | Hwhole].
  - left. rewrite Hlow, orb_true_r. reflexivity.
  - right. exists (Number.round (inject_Z z)).
    rewrite (whole_not_below_one _ Hwhole), (CartMoreFacts.clamp_whole_unchanged _ Hwhole).
    auto.
Qed.

(** Whatever text the input holds, [commit] hands on the Number that
    [parseInt] reads when it is an integer of at least 1 or +Infinity (the
    Number of digits that spell more than the largest finite Number), and
    otherwise hands on nothing and puts the current quantity back. *)
Theorem commit_hands_on_whole_number (val : option jstring) (local : jstring) :
  match commit val local with
  | SetLocalToValue => True
  | OnChange n =>
      whole_or_infinite n
      /\ n = parseInt10 (match default local val with
                         | [] => js "0"
                         | _ => default local val
                         end)
  end.
Proof.
  destruct (commit_cases val local) as [-> | (n & Hn & -> & Hparse)]; [exact I|].
  split; [exact Hn | congruence].
Qed.

(** Whatever text a quantity input commits, with the controls enabled or
    not, a cart whose quantities are integers of at least 1 or +Infinity
    stays such a cart. *)
Theorem input_keeps_quantities_whole (quantityControlsEnabled : bool)
    (state : CartState) (id : jstring) (val : option jstring) (local : jstring) :
  quantities_whole state ->
  quantities_whole (input_commits quantityControlsEnabled state id val local).
Proof.
  intros Hwhole. unfold input_commits.
  destruct (commit_cases val local) as [-> | (n & Hn & -> & _)]; [exact Hwhole|].
  destruct quantityControlsEnabled; [|exact Hwhole].
  rewrite handleAdjustQty_enabled, CartMoreFacts.updateQuantity_sets.
  unfold quantities_whole. cbn [items].
  apply (CartMoreFacts.requantified_whole _ (fun _ => _) _ Hwhole). intros _ _.
  rewrite (CartMoreFacts.clamp_whole_unchanged _ Hn). exact Hn.
Qed.

Lemma input_keeps_quantities_whole_witness :
  quantities_whole
    (input_commits true {| items := [line "a" 100 2] |} (js "a") None (js "12 pills")).
Proof.
  apply input_keeps_quantities_whole.
  constructor; [|constructor]. right. exists 2%Z. split; [lia | reflexivity].
Defined.

(** A text of 400 digits sets the quantity to +Infinity. *)
Example input_commits_infinity :
  items (input_commits true {| items := [line "a" 100 2] |} (js "a") None
           (repeat 57%N 400))
  = [with_quantity (line "a" 100 2) Number.PInf].
Proof. vm_compute. reflexivity. Qed.

(** The text that typing leaves in the input holds digits only, so a
    commit of it reads the number the digits spell; when that number is at
    most 2^53 it is handed on as it is if it is 1 or more, and on the empty
    text and on zeros the quantity is put back. No sign and no fraction
    reaches the cart this way. *)
Theorem commit_of_typed_text (text : jstring) :
  exists v,
    digits_value 10 (typed text) = Some v
    /\ ((Z.of_N v <= 2 ^ 53)%Z ->
        commit None (typed text)
        = if (v <? 1)%N then SetLocalToValue else OnChange (Number.of_Z (Z.of_N v))).
Proof.
  assert (Hd : Forall (fun c => is_digit c = true) (typed text)).
  { apply Forall_forall. intros c Hc.
    apply list_elem_of_In, filter_In in Hc as [_ Hc]. exact Hc. }
  destruct (typed text) as [|c ds] eqn:Htyped.
  - exists 0%N. split; [reflexivity|]. intros _. reflexivity.
  - destruct (parseInt10_digits c ds Hd) as (v & Hv & Hparse). exists v.
    split; [exact Hv|]. intros Hbound.
    rewrite NumberFacts.round_of_Z in Hparse by lia.
    unfold commit. cbv zeta. cbn [default from_option Datatypes.id]. rewrite Hparse.
    change Number.one with (Number.of_Z 1). rewrite NumberFacts.ltb_of_Z.
    cbn [Number.isNaN Number.of_Z orb].
    rewrite NumberFacts.Math_trunc_of_Z, NumberFacts.Math_max_of_Z.
    destruct (v <? 1)%N eqn:Hlt.
    + apply N.ltb_lt in Hlt. replace (Z.of_N v <? 1)%Z with true; [reflexivity|].
      symmetry. apply Z.ltb_lt. lia.
    + apply N.ltb_ge in Hlt. replace (Z.of_N v <? 1)%Z with false.
      * do 2 f_equal. lia.
      * symmetry. apply Z.ltb_ge. lia.
Qed.

Lemma commit_of_typed_text_witness :
  commit None (typed (js "1 2x")) = OnChange (Number.of_Z 12).
Proof.
  destruct (commit_of_typed_text (js "1 2x")) as (v & Hv & Hcommit).
  vm_compute in Hv. injection Hv as <-.
  apply Hcommit. vm_compute. discriminate.
Defined.

(** The page sanitizes the quantity and then the store sanitizes it again,
    to the same number: with the controls enabled [handleAdjustQty] does
    what [updateQuantity] does, for every number, and with the controls
    disabled it does nothing. *)
Theorem handleAdjustQty_is_updateQuantity (state : CartState) (id : jstring)
    (qty : number) :
  handleAdjustQty true state id qty = updateQuantity state id qty
  /\ handleAdjustQty false state id qty = state.
Proof.
  split; [apply handleAdjustQty_enabled | reflexivity].
Qed.

Lemma requantified_alike (id : jstring) (f g : CartItem -> number) (l : list CartItem) :
  (forall i, i ∈ l -> has_id id i = true -> f i = g i) ->
  map (fun i => if has_id id i then with_quantity i (f i) else i) l
  = map (fun i => if has_id id i then with_quantity i (g i) else i) l.
Proof.
  intros H. apply map_ext_in. intros i Hi. apply list_elem_of_In in Hi.
  destruct (has_id id i) eqn:Hid; [|reflexivity]. rewrite (H i Hi Hid). reflexivity.
Qed.

(** The buttons of a line set the quantity through [updateQuantity], from
    the quantity the page shows. When that quantity is an integer of at
    least 1 and is the quantity of the lines with the id, the plus button
    does what [increaseQty] does and the minus button what [decreaseQty]
    does. *)
Theorem buttons_increase_and_decrease (state : CartState) (id : jstring)
    (item : CartItem) :
  positive_integer (quantity item) ->
  (forall i, i ∈ items state -> has_id id i = true -> quantity i = quantity item) ->
  plus_clicked true state id item = increaseQty state id None
  /\ minus_clicked true state id item = decreaseQty state id None.
Proof.
  intros Hq Hsame. unfold plus_clicked, minus_clicked.
  rewrite !handleAdjustQty_enabled, !CartMoreFacts.updateQuantity_sets.
  unfold increaseQty, decreaseQty, reducer. cbv zeta.
  change (default Number.one (Some (default Number.one None))) with Number.one.
  assert (Hplus : whole_or_infinite (Number.add (quantity item) Number.one)).
  { apply CartMoreFacts.add_whole_or_infinite; right;
      [exact Hq | apply positive_integer_one]. }
  assert (Hminus : whole_or_infinite
                     (Number.Math_max Number.one
                        (Number.sub (quantity item)
                           (Number.Math_max Number.one
                              (Number.Math_trunc Number.one))))).
  { apply CartMoreFacts.decrease_whole; [right; exact Hq | reflexivity]. }
  change (Number.Math_max Number.one (Number.Math_trunc Number.one)) with Number.one
    in *.
  rewrite (CartMoreFacts.clamp_whole_unchanged _ Hplus),
    (CartMoreFacts.clamp_whole_unchanged _ Hminus).
  split; f_equal; apply requantified_alike; intros i Hi Hid;
    rewrite (Hsame i Hi Hid); reflexivity.
Qed.

Lemma buttons_increase_and_decrease_witness :
  plus_clicked true {| items := [line "a" 100 2; line "b" 20 1] |} (js "a")
    (line "a" 100 2)
  = {| items := [line "a" 100 3; line "b" 20 1] |}
  /\ minus_clicked true {| items := [line "a" 100 2; line "b" 20 1] |} (js "a")
       (line "a" 100 2)
     = {| items := [line "a" 100 1; line "b" 20 1] |}.
Proof.
  destruct (buttons_increase_and_decrease
              {| items := [line "a" 100 2; line "b" 20 1] |} (js "a") (line "a" 100 2))
    as [-> ->].
  - exists 2%Z. split; [lia | reflexivity].
  - intros i Hi Hid. apply elem_of_cons in Hi as [-> | Hi]; [reflexivity|].
    apply list_elem_of_singleton in Hi. subst i. discriminate.
  - split; reflexivity.
Defined.

End CartPageFacts.
